(** * MDtriageEN: the feature-construction and label-mapping logic of app.py

    A shallow embedding of the pure core of the Streamlit triage form
    (src/app.py): the token dictionaries, the feature assembler
    [make_input_df], the label decoder [decode_label], the presentation
    mapper [triage_style_from_token], the payload construction of the form
    and the red-flag scorer [compute_red_flag_count].

    Conventions of the embedding.
    - A Python [str] is a Rocq [string], the UTF-8 bytes of the text.
      [str.lower] and [str.strip] are modelled on ASCII letters and ASCII
      white space; the multi-byte characters of the duration phrases are
      only ever compared for equality.
    - A Python [dict] is an association list in insertion order with
      first-match lookup; assignment to an existing key keeps its position,
      assignment to a new key appends (the order [pandas.DataFrame] reads
      the columns in).
    - Code that can raise runs in the error monad [exc]; [try]/[except] is
      [try_except].
    - pandas, the classifier and the label encoder are external: they enter
      as section variables. *)

From Stdlib Require Import List String Ascii ZArith Bool Lia.
From Stdlib Require Import DecimalString.
Import ListNotations.
Local Open Scope string_scope.
Local Open Scope Z_scope.

Set Implicit Arguments.

(** ** Exceptions *)

Inductive exn : Type :=
| KeyError (k : string)
| TypeError
| ValueError.

Inductive exc (A : Type) : Type :=
| Ret (a : A)
| Raise (e : exn).

Arguments Ret {A} a.
Arguments Raise {A} e.

Definition bind {A B : Type} (m : exc A) (k : A -> exc B) : exc B :=
  match m with
  | Ret a => k a
  | Raise e => Raise e
  end.

Notation "x <- m ;; k" := (bind m (fun x => k))
  (at level 61, m at next level, right associativity).

(** [try: m  except Exception: h] *)
Definition try_except {A : Type} (m : exc A) (h : exn -> exc A) : exc A :=
  match m with
  | Ret a => Ret a
  | Raise e => h e
  end.

(** A [for] loop whose body can raise. *)
Fixpoint foldM {A B : Type} (f : A -> B -> exc A) (l : list B) (a : A) : exc A :=
  match l with
  | [] => Ret a
  | b :: l' => a' <- f a b ;; foldM f l' a'
  end.

(** ** Python strings *)

Module PyStr.

(** The ASCII characters for which [str.isspace] holds:
    tab, line feed, vertical tab, form feed, carriage return,
    the four separators 0x1c-0x1f and the space. *)
Definition is_space (c : ascii) : bool :=
  let n := nat_of_ascii c in
  (((9 <=? n) && (n <=? 13)) || ((28 <=? n) && (n <=? 32)))%nat.

Fixpoint lstrip (s : string) : string :=
  match s with
  | EmptyString => EmptyString
  | String c s' => if is_space c then lstrip s' else s
  end.

Fixpoint rstrip (s : string) : string :=
  match s with
  | EmptyString => EmptyString
  | String c s' =>
      match rstrip s' with
      | EmptyString => if is_space c then EmptyString else String c EmptyString
      | r => String c r
      end
  end.

(** [s.strip()] *)
Definition strip (s : string) : string := rstrip (lstrip s).

Definition lower_ascii (c : ascii) : ascii :=
  let n := nat_of_ascii c in
  if ((65 <=? n) && (n <=? 90))%nat then ascii_of_nat (n + 32) else c.

(** [s.lower()] *)
Fixpoint lower (s : string) : string :=
  match s with
  | EmptyString => EmptyString
  | String c s' => String (lower_ascii c) (lower s')
  end.

(** [s.startswith(p)] *)
Definition startswith (p s : string) : bool := String.prefix p s.

(** [needle in hay] *)
Fixpoint contains (needle hay : string) : bool :=
  String.prefix needle hay ||
  match hay with
  | EmptyString => false
  | String _ hay' => contains needle hay'
  end.

(** [s.replace(old, new)] for a non-empty [old]: every occurrence, left to
    right, without overlap.  [skip] counts the characters of a matched
    occurrence still to be dropped. *)
Fixpoint replace_from (old new : string) (skip : nat) (s : string) : string :=
  match s with
  | EmptyString => EmptyString
  | String c s' =>
      match skip with
      | S n => replace_from old new n s'
      | O =>
          if String.prefix old s
          then new ++ replace_from old new (String.length old - 1) s'
          else String c (replace_from old new 0 s')
      end
  end.

Definition replace (old new s : string) : string := replace_from old new 0 s.

(** [str(z)] for an [int] *)
Definition of_Z (z : Z) : string := NilEmpty.string_of_int (Z.to_int z).

End PyStr.

(** ** Python values

    The values that the payload, the feature row and the classifier output
    hold in this program: [None], booleans, integers, [np.nan] and text. *)

Inductive pyval : Type :=
| VNone
| VBool (b : bool)
| VInt (z : Z)
| VNaN
| VStr (s : string).

(** [str(v)] *)
Definition py_str (v : pyval) : string :=
  match v with
  | VNone => "None"
  | VBool true => "True"
  | VBool false => "False"
  | VInt z => PyStr.of_Z z
  | VNaN => "nan"
  | VStr s => s
  end.

(** The truth value of [v], as [if v] and [v or w] test it. *)
Definition truthy (v : pyval) : bool :=
  match v with
  | VNone => false
  | VBool b => b
  | VInt z => negb (z =? 0)
  | VNaN => true
  | VStr s => negb (s =? "")%string
  end.

(** [a or b] *)
Definition py_or (a b : pyval) : pyval := if truthy a then a else b.

(** [a == b] *)
Definition py_eq (a b : pyval) : bool :=
  match a, b with
  | VNone, VNone => true
  | VBool x, VBool y => Bool.eqb x y
  | VBool x, VInt y => (if x then 1 else 0) =? y
  | VInt x, VBool y => x =? (if y then 1 else 0)
  | VInt x, VInt y => x =? y
  | VStr x, VStr y => (x =? y)%string
  | _, _ => false
  end.

(** [isinstance(y, (int, np.integer))]; [bool] is a subclass of [int]. *)
Definition isinstance_int (v : pyval) : bool :=
  match v with
  | VInt _ | VBool _ => true
  | _ => false
  end.

(** ** Python dictionaries *)

Definition dict (V : Type) : Type := list (string * V).

Section Dict.
Variable V : Type.

Fixpoint dict_get (k : string) (d : dict V) : option V :=
  match d with
  | [] => None
  | (k', v) :: d' => if (k =? k')%string then Some v else dict_get k d'
  end.

(** [d.get(k, dflt)] *)
Definition dict_get_default (k : string) (dflt : V) (d : dict V) : V :=
  match dict_get k d with
  | Some v => v
  | None => dflt
  end.

(** [d[k]] *)
Definition dict_subscript (k : string) (d : dict V) : exc V :=
  match dict_get k d with
  | Some v => Ret v
  | None => Raise (KeyError k)
  end.

(** [k in d] *)
Definition dict_mem (k : string) (d : dict V) : bool :=
  match dict_get k d with
  | Some _ => true
  | None => false
  end.

(** [d[k] = v] *)
Fixpoint dict_set (k : string) (v : V) (d : dict V) : dict V :=
  match d with
  | [] => [(k, v)]
  | (k', v') :: d' =>
      if (k =? k')%string then (k', v) :: d' else (k', v') :: dict_set k v d'
  end.

(** [d.setdefault(k, v)], for its effect on [d] *)
Definition dict_setdefault (k : string) (v : V) (d : dict V) : dict V :=
  if dict_mem k d then d else dict_set k v d.

(** [d.update(e)] *)
Definition dict_update (d e : dict V) : dict V :=
  fold_left (fun acc kv => dict_set (fst kv) (snd kv) acc) e d.

(** [list(d.keys())] *)
Definition dict_keys (d : dict V) : list string := map fst d.

(** [list(d.values())] *)
Definition dict_values (d : dict V) : list V := map snd d.

(** [{key(x): val(x) for x in l}] *)
Definition dict_comp (A : Type) (key : A -> string) (val : A -> V) (l : list A)
  : dict V :=
  fold_left (fun acc x => dict_set (key x) (val x) acc) l [].

End Dict.

(** [pl.get(k)], which is [None] for an absent key *)
Definition py_get (k : string) (pl : dict pyval) : pyval :=
  dict_get_default k VNone pl.

(** ** The feature schema (app.py, lines 22-41) *)

Definition CAT_FALLBACK : list string :=
  [ "Has_Fever"; "Fever_Level"; "Fever_Duration_Level"; "Chills";
    "Has_Cough"; "Cough_Type"; "Cough_Duration_Level"; "Blood_Cough"; "Breath_Difficulty";
    "Has_Headache"; "Headache_Severity"; "Headache_Duration_Level"; "Photophobia"; "Neck_Stiffness";
    "Has_Abdominal_Pain"; "Pain_Location"; "Pain_Duration_Level"; "Nausea"; "Diarrhea";
    "Has_Fatigue"; "Fatigue_Severity"; "Fatigue_Duration_Level"; "Weight_Loss"; "Fever_With_Fatigue";
    "Has_Vomiting"; "Vomiting_Severity"; "Vomiting_Duration_Level"; "Blood_Vomit"; "Unable_To_Keep_Fluids";
    "Age_Group" ].

Definition NUM_FALLBACK : list string := [ "Red_Flag_Count" ].

(** The content of ui_assets/feature_schema.json as [json.load] returns it,
    reduced to the two keys the program reads. *)
Record schema_json : Type := {
  cat_cols : option (list string);
  num_cols : option (list string)
}.

(** Lines 33-39.  [None] stands for a file that cannot be opened or parsed
    (the [except Exception] branch). *)
Definition load_schema (f : option schema_json) : list string * list string :=
  match f with
  | Some schema =>
      (match cat_cols schema with Some c => c | None => CAT_FALLBACK end,
       match num_cols schema with Some n => n | None => NUM_FALLBACK end)
  | None => (CAT_FALLBACK, NUM_FALLBACK)
  end.

(** ** Choices and token dictionaries (lines 46-73) *)

Definition YN_DISPLAY : list string := [ "Yes"; "No" ].
Definition YN_MAP : dict string := [ ("Yes", "haa"); ("No", "maya") ].

Definition SEV_DISPLAY : list string := [ "mild"; "moderate"; "very severe" ].
Definition SEV_MAP : dict string :=
  [ ("mild", "fudud"); ("moderate", "dhexdhexaad"); ("very severe", "aad u daran") ].

Definition COUGH_DISPLAY : list string := [ "dry"; "wet/productive" ].
Definition COUGH_MAP : dict string := [ ("dry", "qalalan"); ("wet/productive", "qoyan") ].

Definition PAIN_DISPLAY : list string :=
  [ "upper abdomen"; "lower abdomen"; "whole abdomen" ].
Definition PAIN_MAP : dict string :=
  [ ("upper abdomen", "caloosha sare"); ("lower abdomen", "caloosha hoose");
    ("whole abdomen", "caloosha oo dhan") ].

Definition AGE_DISPLAY : list string := [ "child"; "adult"; "elderly" ].
Definition AGE_MAP : dict string :=
  [ ("child", "caruur"); ("adult", "qof weyn"); ("elderly", "waayeel") ].

Definition DUR_TOKEN_TO_DISPLAY : dict string :=
  [ ("fudud", "≤ 1 day");
    ("dhexdhexaad", "2–3 days");
    ("dhexdhexaad ah", "2–3 days");
    ("aad u daran", "≥ 3 days") ].

(** [{v: ("dhexdhexaad" if k.startswith("dhexdhexaad") else k)
      for k, v in DUR_TOKEN_TO_DISPLAY.items()}] *)
Definition DUR_DISPLAY_TO_TOKEN : dict string :=
  dict_comp (fun kv : string * string => snd kv)
            (fun kv => if PyStr.startswith "dhexdhexaad" (fst kv)
                       then "dhexdhexaad" else fst kv)
            DUR_TOKEN_TO_DISPLAY.

(** [list(dict.fromkeys(DUR_TOKEN_TO_DISPLAY.values()))] *)
Definition DUR_DISPLAY : list string :=
  dict_keys (dict_comp (fun v : string => v) (fun _ => VNone)
                       (dict_values DUR_TOKEN_TO_DISPLAY)).

(** The first token of [DUR_TOKEN_TO_DISPLAY], in its order, that renders to
    the phrase [p]. *)
Definition first_token_rendering (p : string) : option string :=
  option_map fst (find (fun kv => (p =? snd kv)%string) DUR_TOKEN_TO_DISPLAY).

(** ** Label dictionaries (lines 76-97) *)

Definition TIP_MILD : string :=
  "Rest at home, drink plenty of fluids, eat light meals, consider simple pain/fever relievers if needed, and monitor symptoms for 24 hours. Seek care if symptoms worsen.".
Definition TIP_MODERATE : string :=
  "Visit a clinic within 24 hours for evaluation. Bring any prior prescriptions or records and keep hydrated.".
Definition TIP_EMERGENCY : string :=
  "Go to the hospital immediately. Do not try home treatment. If possible, go with someone and bring prior prescriptions/records.".

Definition TRIAGE_TIPS : dict string :=
  [ ("Xaalad fudud (Daryeel guri)", TIP_MILD);
    ("Xaalad dhax dhaxaad eh (Bukaan socod)", TIP_MODERATE);
    ("Xaalad dhax dhaxaad ah (Bukaan socod)", TIP_MODERATE);
    ("Xaalad deg deg ah", TIP_EMERGENCY) ].

Definition LABEL_SO_TO_EN : dict string :=
  [ ("Xaalad fudud (Daryeel guri)", "Mild condition (Home care)");
    ("Xaalad dhax dhaxaad eh (Bukaan socod)", "Moderate condition (Outpatient)");
    ("Xaalad dhax dhaxaad ah (Bukaan socod)", "Moderate condition (Outpatient)");
    ("Xaalad deg deg ah", "Emergency") ].

(** The fallback of line 316. *)
Definition GENERAL_ADVICE : string :=
  "General advice: if you are concerned about your condition, contact a healthcare provider.".

(** Line 291: [LABEL_SO_TO_EN.get(label_token, label_token)] *)
Definition label_en (label_token : string) : string :=
  dict_get_default label_token label_token LABEL_SO_TO_EN.

(** Line 316: [TRIAGE_TIPS.get(label_token) or "General advice: ..."];
    [None] and the empty text are the falsy results of the lookup. *)
Definition tip_text (label_token : string) : string :=
  match dict_get label_token TRIAGE_TIPS with
  | Some t => if (t =? "")%string then GENERAL_ADVICE else t
  | None => GENERAL_ADVICE
  end.

(** ** Presentation mapper (lines 134-145) *)

Definition RED : string * string * string := ("#FFEBEE", "#B71C1C", "#EF9A9A").
Definition AMBER : string * string * string := ("#FFF8E1", "#8D6E00", "#FFD54F").
Definition GREEN : string * string * string := ("#E8F5E9", "#1B5E20", "#A5D6A7").

Definition EMERGENCY_MARKER : string := "deg deg".
Definition MODERATE_MARKER : string := "dhax dhaxaad".

(** [label_token] is [None] or text; [label_token or ""] maps [None] and the
    empty text to the empty text. *)
Definition triage_style_from_token (label_token : option string)
  : string * string * string :=
  let t := PyStr.lower (match label_token with Some s => s | None => "" end) in
  if PyStr.contains EMERGENCY_MARKER t then RED
  else if PyStr.contains MODERATE_MARKER t then AMBER
  else GREEN.

(** The decision as the sentence of the specification words it: the markers
    are looked for in the token itself. *)
Definition style_by_markers_in_token (label_token : string)
  : string * string * string :=
  if PyStr.contains EMERGENCY_MARKER label_token then RED
  else if PyStr.contains MODERATE_MARKER label_token then AMBER
  else GREEN.

(** ** One-row tables

    [pandas.DataFrame([row])] for a single dict [row]: one column per key of
    [row], in the order of the keys, each with the type pandas infers for
    its one value. *)

Inductive dtype : Type := DObject | DFloat64 | DInt64 | DBool.

Record cell : Type := { cell_dtype : dtype; cell_value : pyval }.

Definition dataframe : Type := dict cell.

Definition infer_dtype (v : pyval) : dtype :=
  match v with
  | VNaN => DFloat64
  | VBool _ => DBool
  | VInt z =>
      if (- 9223372036854775808 <=? z) && (z <=? 9223372036854775807)
      then DInt64 else DObject
  | VNone | VStr _ => DObject
  end.

Definition pd_DataFrame (row : dict pyval) : dataframe :=
  map (fun kv => (fst kv, {| cell_dtype := infer_dtype (snd kv);
                            cell_value := snd kv |})) row.

(** [list(df.columns)] *)
Definition columns (df : dataframe) : list string := dict_keys df.

(** The value of column [c] in the only row. *)
Definition value_at (c : string) (df : dataframe) : option pyval :=
  option_map cell_value (dict_get c df).

(** [df[c] = df[c].astype("object")]; [df[c]] raises for an unknown column. *)
Definition astype_object (df : dataframe) (c : string) : exc dataframe :=
  col <- dict_subscript c df ;;
  Ret (dict_set c {| cell_dtype := DObject; cell_value := cell_value col |} df).

(** ** Feature assembler (lines 100-123) *)

Section Assembler.

(** The schema read at start-up. *)
Variables CAT_COLS NUM_COLS : list string.

(** [pandas.to_numeric(_, errors="coerce")] on one value. *)
Variable pd_to_numeric : pyval -> exc pyval.

Definition EXPECTED_COLS : list string := CAT_COLS ++ NUM_COLS.

(** The body of the loop over [CAT_COLS]. *)
Definition cat_step (row : dict pyval) (c : string) : dict pyval :=
  let v := dict_get_default c VNaN row in
  match v with
  | VNone => dict_set c VNaN row
  | _ =>
      let s := PyStr.strip (py_str v) in
      dict_set c (if (s =? "")%string then VNaN else VStr s) row
  end.

(** The body of the loop over [NUM_COLS], with its [try]/[except]. *)
Definition num_step (row : dict pyval) (c : string) : exc (dict pyval) :=
  try_except
    (n <- pd_to_numeric (dict_get_default c VNaN row) ;;
     Ret (dict_set c n row))
    (fun _ => Ret (dict_set c VNaN row)).

(** [payload] is [None] or a dict; [payload or {}]. *)
Definition make_input_df (payload : option (dict pyval)) : exc dataframe :=
  let row := dict_comp (fun c : string => c) (fun _ => VNaN) EXPECTED_COLS in
  let row := dict_update row (match payload with Some p => p | None => [] end) in
  let row := fold_left cat_step CAT_COLS row in
  row <- foldM num_step NUM_COLS row ;;
  let df_one := pd_DataFrame row in
  df_one <- foldM astype_object CAT_COLS df_one ;;
  Ret df_one.

(** The value assembled for a numeric column out of [v]: the coercion,
    or [np.nan] when the coercion raises. *)
Definition coerced (v : pyval) : pyval :=
  match pd_to_numeric v with
  | Ret n => n
  | Raise _ => VNaN
  end.

End Assembler.

(** The value assembled for a categorical column out of [v]. *)
Definition categorical (v : pyval) : pyval :=
  match v with
  | VNone => VNaN
  | _ => let s := PyStr.strip (py_str v) in
         if (s =? "")%string then VNaN else VStr s
  end.

(** A stand-in for [pandas.to_numeric(_, errors="coerce")] to run the
    assembler on examples, within the values of [pyval]: numbers are
    returned as they are, text that spells a decimal integer becomes that
    integer, [None] and other text become [np.nan].  (Text that spells a
    fraction, which pandas turns into a float, has no value in [pyval] and
    is not used in the examples.) *)
Definition to_numeric_decimal (v : pyval) : exc pyval :=
  match v with
  | VStr s =>
      match NilZero.int_of_string s with
      | Some i => Ret (VInt (Z.of_int i))
      | None => Ret VNaN
      end
  | VNone => Ret VNaN
  | _ => Ret v
  end.

(** ** Predictor adapter: [decode_label] (lines 125-132) *)

Section Decoder.

(** The label encoder loaded at start-up, [None] when the file is missing;
    [le.inverse_transform([y])[0]] on one value. *)
Variable le : option (pyval -> exc pyval).

Definition decode_label (y : pyval) : exc pyval :=
  r <- try_except
         (match le with
          | Some inverse_transform =>
              if isinstance_int y
              then (tok <- inverse_transform y ;; Ret (Some tok))
              else Ret None
          | None => Ret None
          end)
         (fun _ => Ret None) ;;
  match r with
  | Some tok => Ret tok
  | None => Ret (VStr (py_str y))
  end.

End Decoder.

(** ** Red-flag scorer (lines 268-277) *)

Definition DANGER_KEYS : list string :=
  [ "Breath_Difficulty"; "Blood_Cough"; "Neck_Stiffness"; "Blood_Vomit";
    "Unable_To_Keep_Fluids" ].

Definition SEVERITY_KEYS : list string :=
  [ "Fever_Severity"; "Headache_Severity"; "Fatigue_Severity"; "Vomiting_Severity" ].

(** [sevk.replace("_Severity", "_Level")] *)
Definition level_key (sevk : string) : string :=
  PyStr.replace "_Severity" "_Level" sevk.

Definition compute_red_flag_count (pl : dict pyval) : Z :=
  let score := 0 in
  let score :=
    fold_left (fun score k =>
                 if py_eq (py_get k pl) (VStr "haa") then score + 1 else score)
              DANGER_KEYS score in
  let score :=
    fold_left (fun score sevk =>
                 let v := py_or (py_get sevk pl) (py_get (level_key sevk) pl) in
                 if py_eq v (VStr "aad u daran") then score + 1 else score)
              SEVERITY_KEYS score in
  score.

(** The tally in the words of the specification: one for each key of the
    list whose answer passes the test. *)
Definition tally (test : string -> bool) (keys : list string) : Z :=
  Z.of_nat (List.length (filter test keys)).

Definition is_yes (pl : dict pyval) (k : string) : bool :=
  py_eq (py_get k pl) (VStr "haa").

(** The severity answer, taking the [_Level] key when the [_Severity] key is
    absent from the payload. *)
Definition severity_if_absent (pl : dict pyval) (sevk : string) : pyval :=
  match dict_get sevk pl with
  | Some v => v
  | None => py_get (level_key sevk) pl
  end.

(** The severity answer, taking the [_Level] key when the [_Severity] key is
    absent or holds a falsy value. *)
Definition severity_if_falsy (pl : dict pyval) (sevk : string) : pyval :=
  match dict_get sevk pl with
  | Some v => if truthy v then v else py_get (level_key sevk) pl
  | None => py_get (level_key sevk) pl
  end.

Definition is_very_severe (v : pyval) : bool := py_eq v (VStr "aad u daran").

Definition red_flag_tally_if_absent (pl : dict pyval) : Z :=
  0 + tally (is_yes pl) DANGER_KEYS
    + tally (fun k => is_very_severe (severity_if_absent pl k)) SEVERITY_KEYS.

Definition red_flag_tally (pl : dict pyval) : Z :=
  0 + tally (is_yes pl) DANGER_KEYS
    + tally (fun k => is_very_severe (severity_if_falsy pl k)) SEVERITY_KEYS.

(** ** The form (lines 147-278)

    What the user did with the widgets: the index picked in each select box
    (by widget key, [None] while nothing is picked) and the indices picked
    in the symptom multi-select, in the order of picking.  A select box
    returns one of its options or [None]. *)

Record ui : Type := {
  age_choice : option nat;
  picked_symptoms : list nat;
  choice : string -> option nat
}.

Definition st_selectbox (options : list string) (picked : option nat)
  : option string :=
  match picked with
  | Some i => nth_error options i
  | None => None
  end.

Fixpoint st_multiselect (options : list string) (picked : list nat)
  : list string :=
  match picked with
  | [] => []
  | i :: rest =>
      match nth_error options i with
      | Some o => o :: st_multiselect options rest
      | None => st_multiselect options rest
      end
  end.

(** The result is [None] or a token. *)
Definition render_select (u : ui) (label wtype key : string) : option string :=
  if (wtype =? "yn")%string then
    match st_selectbox YN_DISPLAY (choice u key) with
    | None => None
    | Some disp => dict_get disp YN_MAP
    end
  else if (wtype =? "sev")%string then
    match st_selectbox SEV_DISPLAY (choice u key) with
    | None => None
    | Some disp => dict_get disp SEV_MAP
    end
  else if (wtype =? "cough")%string then
    match st_selectbox COUGH_DISPLAY (choice u key) with
    | None => None
    | Some disp => dict_get disp COUGH_MAP
    end
  else if (wtype =? "painloc")%string then
    match st_selectbox PAIN_DISPLAY (choice u key) with
    | None => None
    | Some disp => dict_get disp PAIN_MAP
    end
  else if (wtype =? "dur")%string then
    match st_selectbox DUR_DISPLAY (choice u key) with
    | None => None
    | Some disp => Some (dict_get_default disp disp DUR_DISPLAY_TO_TOKEN)
    end
  else None.

Record symptom : Type := {
  flag : string;
  fields : list (string * string * string)   (* column, label, widget type *)
}.

Definition SYMPTOMS : dict symptom :=
  [ ("Fever",
     {| flag := "Has_Fever";
        fields := [ ("Fever_Level", "Fever severity", "sev");
                    ("Fever_Duration_Level", "Fever duration", "dur");
                    ("Chills", "Chills", "yn") ] |});
    ("Cough",
     {| flag := "Has_Cough";
        fields := [ ("Cough_Type", "Type of cough", "cough");
                    ("Cough_Duration_Level", "Cough duration", "dur");
                    ("Blood_Cough", "Coughing blood", "yn");
                    ("Breath_Difficulty", "Shortness of breath", "yn") ] |});
    ("Headache",
     {| flag := "Has_Headache";
        fields := [ ("Headache_Severity", "Headache severity", "sev");
                    ("Headache_Duration_Level", "Headache duration", "dur");
                    ("Photophobia", "Light sensitivity", "yn");
                    ("Neck_Stiffness", "Stiff neck", "yn") ] |});
    ("Abdominal pain",
     {| flag := "Has_Abdominal_Pain";
        fields := [ ("Pain_Location", "Abdominal pain location", "painloc");
                    ("Pain_Duration_Level", "Abdominal pain duration", "dur");
                    ("Nausea", "Nausea", "yn");
                    ("Diarrhea", "Diarrhea", "yn") ] |});
    ("Fatigue",
     {| flag := "Has_Fatigue";
        fields := [ ("Fatigue_Severity", "Fatigue severity", "sev");
                    ("Fatigue_Duration_Level", "Fatigue duration", "dur");
                    ("Weight_Loss", "Unintentional weight loss", "yn") ] |});
    ("Vomiting",
     {| flag := "Has_Vomiting";
        fields := [ ("Vomiting_Severity", "Vomiting severity", "sev");
                    ("Vomiting_Duration_Level", "Vomiting duration", "dur");
                    ("Blood_Vomit", "Vomiting blood", "yn");
                    ("Unable_To_Keep_Fluids", "Unable to keep fluids down", "yn") ] |}) ].

(** [[v["flag"] for v in SYMPTOMS.values()]] *)
Definition ALL_FLAGS : list string := map flag (dict_values SYMPTOMS).

(** The follow-up questions of one group (lines 257-260). *)
Definition ask_fields (u : ui) (group : string) (cfg : symptom)
           (payload : dict pyval) : dict pyval :=
  fold_left
    (fun payload (f : string * string * string) =>
       let '(col, label, wtype) := f in
       match render_select u label wtype (group ++ ":" ++ col) with
       | Some val => dict_set col (VStr val) payload
       | None => payload
       end)
    (fields cfg) payload.

(** The body of the loop over the selected groups (lines 253-260). *)
Definition select_group (u : ui) (payload : dict pyval) (group : string)
  : exc (dict pyval) :=
  cfg <- dict_subscript group SYMPTOMS ;;
  let payload := dict_set (flag cfg) (VStr "haa") payload in
  Ret (ask_fields u group cfg payload).

(** Lines 246-248: the payload starts empty and takes the age group when
    one is picked. *)
Definition payload_with_age (u : ui) : exc (dict pyval) :=
  let age_disp := st_selectbox AGE_DISPLAY (age_choice u) in
  let payload : dict pyval := [] in
  match age_disp with
  | Some a =>
      if negb (a =? "")%string
      then (tok <- dict_subscript a AGE_MAP ;;
            Ret (dict_set "Age_Group" (VStr tok) payload))
      else Ret payload
  | None => Ret payload
  end.

(** Lines 249-250: every [Has_*] flag defaults to "maya". *)
Definition default_flags (payload : dict pyval) : dict pyval :=
  fold_left (fun payload flag => dict_setdefault flag (VStr "maya") payload)
            ALL_FLAGS payload.

(** Lines 263-264: the derived feature. *)
Definition derive_fever_with_fatigue (payload : dict pyval) : dict pyval :=
  if py_eq (py_get "Has_Fever" payload) (VStr "haa")
     && py_eq (py_get "Has_Fatigue" payload) (VStr "haa")
  then dict_set "Fever_With_Fatigue" (VStr "haa") payload
  else payload.

Section Form.

Variable NUM_COLS : list string.

(** Lines 267-278: the red-flag count, when the schema has the column. *)
Definition add_red_flag_count (payload : dict pyval) : dict pyval :=
  if existsb (String.eqb "Red_Flag_Count") NUM_COLS
  then dict_set "Red_Flag_Count" (VInt (compute_red_flag_count payload)) payload
  else payload.

(** Lines 239-278: the payload the form hands to [make_input_df]. *)
Definition build_payload (u : ui) : exc (dict pyval) :=
  let selected := st_multiselect (dict_keys SYMPTOMS) (picked_symptoms u) in
  payload <- payload_with_age u ;;
  let payload := default_flags payload in
  payload <- foldM (select_group u) selected payload ;;
  let payload := derive_fever_with_fatigue payload in
  let payload := add_red_flag_count payload in
  Ret payload.

End Form.

(** The form with nothing picked. *)
Definition ui_empty : ui :=
  {| age_choice := None; picked_symptoms := []; choice := fun _ => None |}.

(** An adult with fever and fatigue, fever very severe. *)
Definition ui_fever_fatigue : ui :=
  {| age_choice := Some 1%nat;
     picked_symptoms := [0%nat; 4%nat];
     choice := fun key => if (key =? "Fever:Fever_Level")%string
                          then Some 2%nat else None |}.

(** The payload columns that the follow-up questions of a group write. *)
Definition field_columns (cfg : symptom) : list string :=
  map (fun f : string * string * string => fst (fst f)) (fields cfg).

(** No group writes [Fever_With_Fatigue] or, through a follow-up question,
    a [Has_*] flag. *)
Definition group_keeps_derived (cfg : symptom) : bool :=
  negb (existsb (String.eqb "Fever_With_Fatigue") (field_columns cfg))
  && negb ("Fever_With_Fatigue" =? flag cfg)%string
  && forallb (fun f => negb (existsb (String.eqb f) (field_columns cfg))) ALL_FLAGS.

(** What the loops of the form keep true of the payload: its keys are
    distinct, [Fever_With_Fatigue] is not set, every [Has_*] flag is "haa" or
    "maya". *)
Definition flags_set (payload : dict pyval) : Prop :=
  NoDup (dict_keys payload)
  /\ dict_get "Fever_With_Fatigue" payload = None
  /\ forall f, In f ALL_FLAGS ->
       dict_get f payload = Some (VStr "haa") \/ dict_get f payload = Some (VStr "maya").

(** On the built-in schema every key a group writes is a column. *)
Definition group_in_schema (cfg : symptom) : bool :=
  forallb (fun k => existsb (String.eqb k) (CAT_FALLBACK ++ NUM_FALLBACK))
          (flag cfg :: field_columns cfg).

(** ** Checks on lists of names, for running the hypotheses of the
    properties on concrete schemas and payloads *)

Fixpoint distinctb (l : list string) : bool :=
  match l with
  | [] => true
  | x :: l' => negb (existsb (String.eqb x) l') && distinctb l'
  end.

Definition inclb (l m : list string) : bool :=
  forallb (fun k => existsb (String.eqb k) m) l.

(** ** The Assess button, up to the label token (lines 282-290)

    The script builds the payload on every run; the button then warns or
    predicts.  [predict x] stands for [pipe.predict(x)[0]]. *)

Inductive assessed : Type :=
| Warned (msg : string)
| Labelled (label_token : pyval).

Section Assess.

Variables CAT_COLS NUM_COLS : list string.
Variable pd_to_numeric : pyval -> exc pyval.
Variable predict : dataframe -> exc pyval.
Variable le : option (pyval -> exc pyval).

Definition assess_label (u : ui) : exc assessed :=
  let age_disp := st_selectbox AGE_DISPLAY (age_choice u) in
  let selected := st_multiselect (dict_keys SYMPTOMS) (picked_symptoms u) in
  payload <- build_payload NUM_COLS u ;;
  if negb (match age_disp with Some a => negb (a =? "")%string | None => false end)
  then Ret (Warned "Please select your age group.")
  else if (List.length selected =? 0)%nat
  then Ret (Warned "Please select at least one symptom.")
  else
    x <- make_input_df CAT_COLS NUM_COLS pd_to_numeric (Some payload) ;;
    y_pred <- predict x ;;
    label_token <- decode_label le y_pred ;;
    Ret (Labelled label_token).

End Assess.

(** ** Vocabulary for the properties of the form *)

(** The groups picked in the multi-select (line 243). *)
Definition selected_groups (u : ui) : list string :=
  st_multiselect (dict_keys SYMPTOMS) (picked_symptoms u).

(** The options a select box of type [wtype] shows, and the tokens its
    answers are mapped to. *)
Definition widget_options (wtype : string) : list string :=
  if (wtype =? "yn")%string then YN_DISPLAY
  else if (wtype =? "sev")%string then SEV_DISPLAY
  else if (wtype =? "cough")%string then COUGH_DISPLAY
  else if (wtype =? "painloc")%string then PAIN_DISPLAY
  else if (wtype =? "dur")%string then DUR_DISPLAY
  else [].

Definition widget_tokens (wtype : string) : list string :=
  if (wtype =? "yn")%string then dict_values YN_MAP
  else if (wtype =? "sev")%string then dict_values SEV_MAP
  else if (wtype =? "cough")%string then dict_values COUGH_MAP
  else if (wtype =? "painloc")%string then dict_values PAIN_MAP
  else if (wtype =? "dur")%string then dict_values DUR_DISPLAY_TO_TOKEN
  else [].

(** The answer to one follow-up question as the payload stores it. *)
Definition answer (u : ui) (group : string) (f : string * string * string)
  : option pyval :=
  let '(col, label, wtype) := f in
  option_map VStr (render_select u label wtype (group ++ ":" ++ col)%string).

(** The payload reflects the groups for which [done] holds: their flags are
    "haa" and their columns hold the answers given; the other flags are
    "maya" and the other columns are absent. *)
Definition reflects (u : ui) (done : string -> bool) (payload : dict pyval) : Prop :=
  (forall g cfg, dict_get g SYMPTOMS = Some cfg ->
     dict_get (flag cfg) payload = Some (VStr (if done g then "haa" else "maya")))
  /\ (forall g cfg f, dict_get g SYMPTOMS = Some cfg -> In f (fields cfg) ->
        dict_get (fst (fst f)) payload = if done g then answer u g f else None).

(** Every value of the payload is a non-empty text. *)
Definition all_tokens (payload : dict pyval) : Prop :=
  forall k v, dict_get k payload = Some v ->
              exists s, v = VStr s /\ s <> ""%string.

(** Facts of the table [SYMPTOMS], group against group: different groups
    have different flags, no flag is a follow-up column, different groups
    have different follow-up columns. *)
Definition groups_apart (p q : string * symptom) : bool :=
  Bool.eqb (flag (snd q) =? flag (snd p))%string (fst q =? fst p)%string
  && negb (existsb (String.eqb (flag (snd q))) (field_columns (snd p)))
  && ((fst q =? fst p)%string
      || forallb (fun col => negb (existsb (String.eqb col) (field_columns (snd p))))
                 (field_columns (snd q))).

(** The keys a payload starts with, before any group is selected. *)
Definition base_keys : list string := "Age_Group" :: ALL_FLAGS.

(** Facts of the table, group by group: the follow-up columns are distinct
    and none is a key the payload starts with or a derived key. *)
Definition group_columns_fresh (p : string * symptom) : bool :=
  distinctb (field_columns (snd p))
  && forallb (fun col =>
                negb (existsb (String.eqb col)
                              ("Fever_With_Fatigue" :: "Red_Flag_Count" :: base_keys)))
             (field_columns (snd p))
  && negb (existsb (String.eqb (flag (snd p)))
                   [ "Fever_With_Fatigue"; "Red_Flag_Count"; "Age_Group" ]).

(** * Properties *)

Local Open Scope list_scope.
Unset Implicit Arguments.

(** ** Dictionaries *)

Section DictFacts.
Variable V : Type.
Implicit Types (d e : dict V) (k j : string) (v : V).

Lemma dict_get_set k j v d :
  dict_get j (dict_set k v d) = if (j =? k)%string then Some v else dict_get j d.
Proof.
  induction d as [| [k' v'] d IH]; simpl.
  - reflexivity.
  - destruct (k =? k')%string eqn:E; simpl.
    + apply String.eqb_eq in E; subst k'.
      destruct (j =? k)%string; reflexivity.
    + rewrite IH.
      destruct (j =? k')%string eqn:E'; [| reflexivity].
      apply String.eqb_eq in E'; subst k'.
      rewrite String.eqb_sym, E. reflexivity.
Qed.

Lemma dict_get_set_same k v d : dict_get k (dict_set k v d) = Some v.
Proof. rewrite dict_get_set, String.eqb_refl. reflexivity. Qed.

Lemma dict_get_set_other k j v d :
  j <> k -> dict_get j (dict_set k v d) = dict_get j d.
Proof.
  intros H. rewrite dict_get_set.
  apply String.eqb_neq in H. rewrite H. reflexivity.
Qed.

Lemma dict_get_none_keys k d : dict_get k d = None <-> ~ In k (dict_keys d).
Proof.
  induction d as [| [k' v'] d IH]; simpl.
  - tauto.
  - destruct (k =? k')%string eqn:E.
    + apply String.eqb_eq in E. split; [discriminate | intros H; exfalso; auto].
    + apply String.eqb_neq in E. rewrite IH. split.
      * intros H [H' | H']; [congruence | auto].
      * intros H H'. apply H. right. exact H'.
Qed.

Lemma dict_get_some_keys k d :
  In k (dict_keys d) -> exists v, dict_get k d = Some v.
Proof.
  intros H. destruct (dict_get k d) eqn:E; [eauto |].
  apply dict_get_none_keys in E. contradiction.
Qed.

Lemma dict_keys_set_in k v d :
  In k (dict_keys d) -> dict_keys (dict_set k v d) = dict_keys d.
Proof.
  induction d as [| [k' v'] d IH]; simpl; intros H.
  - contradiction.
  - destruct (k =? k')%string eqn:E; simpl.
    + reflexivity.
    + apply String.eqb_neq in E. f_equal. apply IH.
      destruct H as [H | H]; [congruence | exact H].
Qed.

Lemma dict_keys_set_notin k v d :
  ~ In k (dict_keys d) -> dict_keys (dict_set k v d) = dict_keys d ++ [k].
Proof.
  induction d as [| [k' v'] d IH]; simpl; intros H.
  - reflexivity.
  - destruct (k =? k')%string eqn:E; simpl.
    + apply String.eqb_eq in E. exfalso. auto.
    + f_equal. apply IH. auto.
Qed.

(** A comprehension over distinct new keys appends them in order. *)
Lemma dict_keys_fold_set (val : string -> V) (l : list string) :
  forall d, NoDup (dict_keys d ++ l) ->
    dict_keys (fold_left (fun acc x => dict_set x (val x) acc) l d)
    = dict_keys d ++ l.
Proof.
  induction l as [| x l IH]; simpl; intros d H.
  - rewrite app_nil_r. reflexivity.
  - assert (Hx : ~ In x (dict_keys d)).
    { apply NoDup_remove_2 in H. intros Hin. apply H.
      apply in_or_app. left. exact Hin. }
    rewrite IH; rewrite (dict_keys_set_notin _ _ _ Hx), <- app_assoc; simpl.
    + reflexivity.
    + exact H.
Qed.

Lemma dict_get_fold_set (val : string -> V) (l : list string) k :
  forall d,
    dict_get k (fold_left (fun acc x => dict_set x (val x) acc) l d)
    = if existsb (String.eqb k) l then Some (val k) else dict_get k d.
Proof.
  induction l as [| x l IH]; simpl; intros d.
  - reflexivity.
  - rewrite IH, dict_get_set.
    destruct (k =? x)%string eqn:E; simpl.
    + apply String.eqb_eq in E; subst x.
      destruct (existsb (String.eqb k) l); reflexivity.
    + reflexivity.
Qed.

(** [update] with keys the dict already has leaves the keys as they are. *)
Lemma dict_keys_update_subset e :
  forall d, (forall k, In k (dict_keys e) -> In k (dict_keys d)) ->
    dict_keys (dict_update d e) = dict_keys d.
Proof.
  unfold dict_update.
  induction e as [| [k v] e IH]; simpl; intros d H.
  - reflexivity.
  - rewrite IH.
    + apply dict_keys_set_in. apply H. left. reflexivity.
    + intros j Hj. rewrite dict_keys_set_in by (apply H; left; reflexivity).
      apply H. right. exact Hj.
Qed.

(** [update] never drops a key. *)
Lemma dict_keys_update_incl e :
  forall d k, In k (dict_keys d) -> In k (dict_keys (dict_update d e)).
Proof.
  unfold dict_update.
  induction e as [| [j v] e IH]; simpl; intros d k H.
  - exact H.
  - apply IH.
    destruct (in_dec string_dec j (dict_keys d)) as [Hj | Hj].
    + rewrite dict_keys_set_in by exact Hj. exact H.
    + rewrite dict_keys_set_notin by exact Hj. apply in_or_app. left. exact H.
Qed.

(** For a dict argument (distinct keys), [update] takes its entries. *)
Lemma dict_get_update e k :
  NoDup (dict_keys e) ->
  forall d, dict_get k (dict_update d e)
            = match dict_get k e with Some v => Some v | None => dict_get k d end.
Proof.
  unfold dict_update.
  induction e as [| [j v] e IH]; simpl; intros Hnd d.
  - reflexivity.
  - inversion Hnd as [| ? ? Hj Hnd']; subst.
    rewrite (IH Hnd'), dict_get_set.
    destruct (k =? j)%string eqn:E.
    + apply String.eqb_eq in E; subst j.
      apply dict_get_none_keys in Hj. rewrite Hj. reflexivity.
    + reflexivity.
Qed.

End DictFacts.

(** Loops that assign [d[c] = h(d.get(c))] for each [c] of a list. *)

Section AssignLoops.
Variable V : Type.
Variable h : option V -> V.

Let assign (d : dict V) (c : string) : dict V := dict_set c (h (dict_get c d)) d.

Lemma dict_keys_fold_assign (l : list string) :
  forall d, incl l (dict_keys d) ->
    dict_keys (fold_left assign l d) = dict_keys d.
Proof.
  induction l as [| x l IH]; simpl; intros d H.
  - reflexivity.
  - assert (Hx : In x (dict_keys d)) by (apply H; left; reflexivity).
    assert (Hk : dict_keys (assign d x) = dict_keys d)
      by (apply dict_keys_set_in; exact Hx).
    rewrite IH; rewrite Hk.
    + reflexivity.
    + intros j Hj. apply H. right. exact Hj.
Qed.

Lemma dict_get_fold_assign (l : list string) (k : string) :
  NoDup l ->
  forall d, dict_get k (fold_left assign l d)
            = if existsb (String.eqb k) l then Some (h (dict_get k d))
              else dict_get k d.
Proof.
  induction l as [| x l IH]; simpl; intros Hnd d.
  - reflexivity.
  - inversion Hnd as [| ? ? Hx Hnd']; subst.
    rewrite (IH Hnd'). unfold assign. rewrite dict_get_set.
    destruct (k =? x)%string eqn:E; simpl.
    + apply String.eqb_eq in E; subst x.
      replace (existsb (String.eqb k) l) with false; [reflexivity |].
      symmetry. apply not_true_is_false. intros Hex.
      apply existsb_exists in Hex. destruct Hex as [y [Hy Ey]].
      apply String.eqb_eq in Ey; subst y. contradiction.
    + reflexivity.
Qed.

End AssignLoops.

Lemma fold_left_pointwise (A B : Type) (f g : A -> B -> A) (l : list B) :
  (forall a b, f a b = g a b) -> forall a, fold_left f l a = fold_left g l a.
Proof.
  intros H. induction l as [| b l IH]; simpl; intros a.
  - reflexivity.
  - rewrite H. apply IH.
Qed.

Lemma existsb_eqb_In (k : string) (l : list string) :
  existsb (String.eqb k) l = true <-> In k l.
Proof.
  rewrite existsb_exists. split.
  - intros [y [Hy E]]. apply String.eqb_eq in E. subst y. exact Hy.
  - intros H. exists k. split; [exact H | apply String.eqb_refl].
Qed.

(** ** One-row tables *)

Lemma columns_pd_DataFrame (row : dict pyval) :
  columns (pd_DataFrame row) = dict_keys row.
Proof.
  unfold columns, pd_DataFrame, dict_keys. rewrite map_map. reflexivity.
Qed.

Lemma value_at_pd_DataFrame (c : string) (row : dict pyval) :
  value_at c (pd_DataFrame row) = dict_get c row.
Proof.
  unfold value_at, pd_DataFrame.
  induction row as [| [k v] row IH]; simpl.
  - reflexivity.
  - destruct (c =? k)%string; [reflexivity | exact IH].
Qed.

(** Retyping the columns of a list that the table has does not raise and
    changes neither the columns nor the values. *)
Lemma foldM_astype_object (l : list string) :
  forall df, incl l (columns df) ->
    exists df', foldM astype_object l df = Ret df'
                /\ columns df' = columns df
                /\ forall c, value_at c df' = value_at c df.
Proof.
  induction l as [| x l IH]; simpl; intros df H.
  - exists df. auto.
  - assert (Hx : In x (columns df)) by (apply H; left; reflexivity).
    destruct (dict_get_some_keys _ _ _ Hx) as [col Hcol].
    unfold astype_object at 1, dict_subscript. rewrite Hcol. simpl.
    set (df1 := dict_set x _ df).
    assert (Hk : columns df1 = columns df)
      by (apply dict_keys_set_in; exact Hx).
    destruct (IH df1) as [df' [Hret [Hcols Hval]]].
    { rewrite Hk. intros j Hj. apply H. right. exact Hj. }
    exists df'. split; [exact Hret |]. split; [congruence |].
    intros c. rewrite Hval. unfold value_at, df1. rewrite dict_get_set.
    destruct (c =? x)%string eqn:E; [| reflexivity].
    apply String.eqb_eq in E; subst x. rewrite Hcol. reflexivity.
Qed.

(** ** Feature assembler *)

Section AssemblerFacts.
Variables CAT_COLS NUM_COLS : list string.
Variable pd_to_numeric : pyval -> exc pyval.

Let or_nan (o : option pyval) : pyval :=
  match o with Some v => v | None => VNaN end.

(** The row before the two typing loops. *)
Let row0 (payload : option (dict pyval)) : dict pyval :=
  dict_update (dict_comp (fun c : string => c) (fun _ => VNaN)
                         (EXPECTED_COLS CAT_COLS NUM_COLS))
              (match payload with Some p => p | None => [] end).

Let cat_assign (row : dict pyval) (c : string) : dict pyval :=
  dict_set c (categorical (or_nan (dict_get c row))) row.

Let num_assign (row : dict pyval) (c : string) : dict pyval :=
  dict_set c (coerced pd_to_numeric (or_nan (dict_get c row))) row.

Lemma cat_step_assign (row : dict pyval) (c : string) :
  cat_step row c = cat_assign row c.
Proof.
  unfold cat_step, cat_assign, categorical, or_nan, dict_get_default.
  destruct (dict_get c row) as [v |]; [destruct v |]; reflexivity.
Qed.

Lemma num_step_ret (row : dict pyval) (c : string) :
  num_step pd_to_numeric row c = Ret (num_assign row c).
Proof.
  unfold num_step, num_assign, coerced, or_nan, dict_get_default.
  destruct (pd_to_numeric _); reflexivity.
Qed.

Lemma foldM_num_step (l : list string) :
  forall row, foldM (num_step pd_to_numeric) l row = Ret (fold_left num_assign l row).
Proof.
  induction l as [| c l IH]; simpl; intros row.
  - reflexivity.
  - rewrite num_step_ret. simpl. apply IH.
Qed.

Lemma dict_comp_keys_incl (l : list string) :
  incl l (dict_keys (dict_comp (fun c : string => c) (fun _ => VNaN) l)).
Proof.
  intros k Hk. unfold dict_comp.
  destruct (in_dec string_dec k
              (dict_keys (fold_left (fun acc x => dict_set x VNaN acc) l [])))
    as [H | H]; [exact H |].
  apply dict_get_none_keys in H.
  rewrite (dict_get_fold_set pyval (fun _ => VNaN)) in H.
  apply existsb_eqb_In in Hk. rewrite Hk in H. discriminate.
Qed.

Lemma row0_keys_incl (payload : option (dict pyval)) :
  incl (EXPECTED_COLS CAT_COLS NUM_COLS) (dict_keys (row0 payload)).
Proof.
  intros k Hk. unfold row0. apply dict_keys_update_incl.
  apply dict_comp_keys_incl. exact Hk.
Qed.

(** The assembler never raises; its table has the keys of the row as
    columns and the row's values after the two loops. *)
Lemma make_input_df_ret (payload : option (dict pyval)) :
  exists df,
    make_input_df CAT_COLS NUM_COLS pd_to_numeric payload = Ret df
    /\ columns df = dict_keys (row0 payload)
    /\ forall c, value_at c df
                 = dict_get c (fold_left num_assign NUM_COLS
                                 (fold_left cat_assign CAT_COLS (row0 payload))).
Proof.
  unfold make_input_df. fold (row0 payload).
  rewrite (fold_left_pointwise _ _ cat_step cat_assign CAT_COLS cat_step_assign).
  rewrite foldM_num_step. simpl.
  set (row := fold_left num_assign NUM_COLS _).
  assert (Hkeys : dict_keys row = dict_keys (row0 payload)).
  { unfold row.
    assert (Hc : dict_keys (fold_left cat_assign CAT_COLS (row0 payload))
                 = dict_keys (row0 payload)).
    { apply (dict_keys_fold_assign pyval (fun o => categorical (or_nan o))).
      intros k Hk. apply row0_keys_incl. apply in_or_app. left. exact Hk. }
    rewrite <- Hc.
    apply (dict_keys_fold_assign pyval (fun o => coerced pd_to_numeric (or_nan o))).
    rewrite Hc. intros k Hk. apply row0_keys_incl. apply in_or_app. right. exact Hk. }
  destruct (foldM_astype_object CAT_COLS (pd_DataFrame row)) as [df [Hret [Hcols Hval]]].
  { rewrite columns_pd_DataFrame, Hkeys. intros k Hk.
    apply row0_keys_incl. apply in_or_app. left. exact Hk. }
  exists df. rewrite Hret. simpl. split; [reflexivity |]. split.
  - rewrite Hcols, columns_pd_DataFrame. exact Hkeys.
  - intros c. rewrite Hval. apply value_at_pd_DataFrame.
Qed.

End AssemblerFacts.

Lemma distinctb_NoDup (l : list string) : distinctb l = true -> NoDup l.
Proof.
  induction l as [| x l IH]; simpl; intros H.
  - constructor.
  - apply andb_prop in H. destruct H as [Hx Hl].
    constructor; [| exact (IH Hl)].
    intros Hin. apply existsb_eqb_In in Hin. rewrite Hin in Hx. discriminate.
Qed.

Lemma inclb_incl (l m : list string) : inclb l m = true -> incl l m.
Proof.
  unfold inclb. rewrite forallb_forall. intros H k Hk.
  apply existsb_eqb_In. exact (H k Hk).
Qed.

Lemma NoDup_app_disjoint (l m : list string) (k : string) :
  NoDup (l ++ m) -> In k l -> In k m -> False.
Proof.
  induction l as [| x l IH]; simpl; intros Hnd Hl Hm.
  - exact Hl.
  - inversion Hnd as [| ? ? Hx Hnd']; subst.
    destruct Hl as [-> | Hl].
    + apply Hx. apply in_or_app. right. exact Hm.
    + exact (IH Hnd' Hl Hm).
Qed.

Lemma existsb_eqb_notin (k : string) (l : list string) :
  ~ In k l -> existsb (String.eqb k) l = false.
Proof.
  intros H. apply not_true_is_false. intros E.
  apply existsb_eqb_In in E. contradiction.
Qed.

(** C1 (as amended).  For a schema of distinct column names and a payload
    whose keys are all schema columns, the assembler returns a table whose
    columns are exactly [CAT_COLS] followed by [NUM_COLS], in that order. *)
Theorem make_input_df_columns
        (CAT_COLS NUM_COLS : list string) (pd_to_numeric : pyval -> exc pyval)
        (payload : option (dict pyval)) :
  NoDup (EXPECTED_COLS CAT_COLS NUM_COLS) ->
  incl (dict_keys (match payload with Some p => p | None => [] end))
       (EXPECTED_COLS CAT_COLS NUM_COLS) ->
  exists df,
    make_input_df CAT_COLS NUM_COLS pd_to_numeric payload = Ret df
    /\ columns df = EXPECTED_COLS CAT_COLS NUM_COLS.
Proof.
  intros Hnd Hincl.
  destruct (make_input_df_ret CAT_COLS NUM_COLS pd_to_numeric payload)
    as [df [Hret [Hcols _]]].
  exists df. split; [exact Hret |]. rewrite Hcols.
  assert (Hcomp : dict_keys (dict_comp (fun c : string => c) (fun _ => VNaN)
                               (EXPECTED_COLS CAT_COLS NUM_COLS))
                  = EXPECTED_COLS CAT_COLS NUM_COLS).
  { unfold dict_comp.
    rewrite (dict_keys_fold_set pyval (fun _ => VNaN)); [reflexivity | exact Hnd]. }
  rewrite dict_keys_update_subset; [exact Hcomp |].
  rewrite Hcomp. exact Hincl.
Qed.

(** The payload of an adult with fever and fatigue, on the built-in schema. *)
Lemma make_input_df_columns_witness :
  exists df,
    make_input_df CAT_FALLBACK NUM_FALLBACK to_numeric_decimal
      (Some [ ("Age_Group", VStr "qof weyn"); ("Has_Fever", VStr "haa");
              ("Has_Fatigue", VStr "haa"); ("Fever_Level", VStr "aad u daran");
              ("Fever_With_Fatigue", VStr "haa"); ("Red_Flag_Count", VInt 1) ])
    = Ret df
    /\ columns df = EXPECTED_COLS CAT_FALLBACK NUM_FALLBACK.
Proof.
  apply make_input_df_columns.
  - apply distinctb_NoDup. vm_compute. reflexivity.
  - apply inclb_incl. vm_compute. reflexivity.
Defined.

(** C1 as stated fails: a payload key outside the schema (here the
    [Fever_Severity] key that the red-flag scorer reads) becomes one more
    column of the table. *)
Lemma make_input_df_extra_column :
  exists df,
    make_input_df CAT_FALLBACK NUM_FALLBACK to_numeric_decimal
      (Some [ ("Fever_Severity", VStr "aad u daran") ]) = Ret df
    /\ columns df = EXPECTED_COLS CAT_FALLBACK NUM_FALLBACK ++ [ "Fever_Severity" ]
    /\ columns df <> EXPECTED_COLS CAT_FALLBACK NUM_FALLBACK.
Proof.
  eexists. split; [vm_compute; reflexivity |]. split.
  - vm_compute. reflexivity.
  - intros H. apply (f_equal (@List.length string)) in H.
    vm_compute in H. discriminate H.
Qed.

(** What the row holds for column [c] before the typing loops: the
    payload's value, or [np.nan] for a schema column the payload lacks. *)
Lemma dict_get_row0 (cols : list string) (payload : dict pyval) (c : string) :
  NoDup (dict_keys payload) -> In c cols ->
  dict_get c (dict_update (dict_comp (fun c : string => c) (fun _ => VNaN) cols) payload)
  = Some (match dict_get c payload with Some v => v | None => VNaN end).
Proof.
  intros Hnd Hc. rewrite (dict_get_update _ _ _ Hnd).
  destruct (dict_get c payload); [reflexivity |].
  unfold dict_comp. rewrite (dict_get_fold_set pyval (fun _ => VNaN)).
  apply existsb_eqb_In in Hc. rewrite Hc. reflexivity.
Qed.

(** C6.  A value [v] supplied for a numeric schema column never makes the
    assembler raise: the table holds [pandas.to_numeric(v, errors="coerce")]
    when that call returns, and [np.nan] when it raises. *)
Theorem make_input_df_numeric
        (CAT_COLS NUM_COLS : list string) (pd_to_numeric : pyval -> exc pyval)
        (payload : dict pyval) (c : string) (v : pyval) :
  NoDup (EXPECTED_COLS CAT_COLS NUM_COLS) ->
  NoDup (dict_keys payload) ->
  In c NUM_COLS ->
  dict_get c payload = Some v ->
  exists df,
    make_input_df CAT_COLS NUM_COLS pd_to_numeric (Some payload) = Ret df
    /\ value_at c df = Some (match pd_to_numeric v with
                             | Ret n => n
                             | Raise _ => VNaN
                             end).
Proof.
  intros Hnd Hpl Hc Hv.
  destruct (make_input_df_ret CAT_COLS NUM_COLS pd_to_numeric (Some payload))
    as [df [Hret [_ Hval]]].
  exists df. split; [exact Hret |]. rewrite Hval.
  rewrite dict_get_fold_assign
    with (h := fun o => coerced pd_to_numeric (match o with Some v => v | None => VNaN end))
    by exact (NoDup_app_remove_l _ _ Hnd).
  apply existsb_eqb_In in Hc. rewrite Hc.
  rewrite dict_get_fold_assign
    with (h := fun o => categorical (match o with Some v => v | None => VNaN end))
    by exact (NoDup_app_remove_r _ _ Hnd).
  rewrite existsb_eqb_notin.
  - rewrite dict_get_row0.
    + rewrite Hv. reflexivity.
    + exact Hpl.
    + apply in_or_app. right. apply existsb_eqb_In. exact Hc.
  - intros Hin. apply existsb_eqb_In in Hc.
    exact (NoDup_app_disjoint _ _ _ Hnd Hin Hc).
Qed.

(** Text that is no number in [Red_Flag_Count], on the built-in schema. *)
Lemma make_input_df_numeric_witness :
  exists df,
    make_input_df CAT_FALLBACK NUM_FALLBACK to_numeric_decimal
      (Some [ ("Has_Fever", VStr "haa"); ("Red_Flag_Count", VStr "many") ]) = Ret df
    /\ value_at "Red_Flag_Count" df = Some VNaN.
Proof.
  apply (make_input_df_numeric CAT_FALLBACK NUM_FALLBACK to_numeric_decimal
           [ ("Has_Fever", VStr "haa"); ("Red_Flag_Count", VStr "many") ]
           "Red_Flag_Count" (VStr "many")).
  - apply distinctb_NoDup. vm_compute. reflexivity.
  - apply distinctb_NoDup. vm_compute. reflexivity.
  - simpl. left. reflexivity.
  - reflexivity.
Defined.

(** The cell of a categorical column: [categorical] of the payload's value,
    or of the [np.nan] the row starts with. *)
Lemma make_input_df_categorical_cell
      (CAT_COLS NUM_COLS : list string) (pd_to_numeric : pyval -> exc pyval)
      (payload : dict pyval) (c : string) :
  NoDup (EXPECTED_COLS CAT_COLS NUM_COLS) ->
  NoDup (dict_keys payload) ->
  In c CAT_COLS ->
  exists df,
    make_input_df CAT_COLS NUM_COLS pd_to_numeric (Some payload) = Ret df
    /\ value_at c df
       = Some (categorical (match dict_get c payload with
                            | Some v => v
                            | None => VNaN
                            end)).
Proof.
  intros Hnd Hpl Hc.
  destruct (make_input_df_ret CAT_COLS NUM_COLS pd_to_numeric (Some payload))
    as [df [Hret [_ Hval]]].
  exists df. split; [exact Hret |]. rewrite Hval.
  rewrite dict_get_fold_assign
    with (h := fun o => coerced pd_to_numeric (match o with Some v => v | None => VNaN end))
    by exact (NoDup_app_remove_l _ _ Hnd).
  rewrite existsb_eqb_notin
    by (intros Hin; exact (NoDup_app_disjoint _ _ _ Hnd Hc Hin)).
  rewrite dict_get_fold_assign
    with (h := fun o => categorical (match o with Some v => v | None => VNaN end))
    by exact (NoDup_app_remove_r _ _ Hnd).
  assert (Hex : existsb (String.eqb c) CAT_COLS = true)
    by (apply existsb_eqb_In; exact Hc).
  rewrite Hex, dict_get_row0.
  - reflexivity.
  - exact Hpl.
  - apply in_or_app. left. exact Hc.
Qed.

(** C7 (what the code does).  For a categorical schema column the table
    holds [np.nan] when the payload's value is [None] or trims to the empty
    text, the trimmed text of the value otherwise, and the text "nan" when
    the payload has no value for the column: the [np.nan] the row starts
    with is not [None], so it is stringified like a supplied value. *)
Theorem make_input_df_categorical
        (CAT_COLS NUM_COLS : list string) (pd_to_numeric : pyval -> exc pyval)
        (payload : dict pyval) (c : string) :
  NoDup (EXPECTED_COLS CAT_COLS NUM_COLS) ->
  NoDup (dict_keys payload) ->
  In c CAT_COLS ->
  exists df,
    make_input_df CAT_COLS NUM_COLS pd_to_numeric (Some payload) = Ret df
    /\ value_at c df
       = Some (match dict_get c payload with
               | Some VNone => VNaN
               | Some v => if (PyStr.strip (py_str v) =? "")%string
                           then VNaN else VStr (PyStr.strip (py_str v))
               | None => VStr "nan"
               end).
Proof.
  intros Hnd Hpl Hc.
  destruct (make_input_df_categorical_cell CAT_COLS NUM_COLS pd_to_numeric
              payload c Hnd Hpl Hc) as [df [Hret Hval]].
  exists df. split; [exact Hret |]. rewrite Hval.
  destruct (dict_get c payload) as [v |].
  - destruct v; reflexivity.
  - vm_compute. reflexivity.
Qed.

(** The empty payload on the built-in schema: [Chills] is assembled as the
    text "nan", not as a null. *)
Lemma make_input_df_categorical_witness :
  exists df,
    make_input_df CAT_FALLBACK NUM_FALLBACK to_numeric_decimal (Some []) = Ret df
    /\ value_at "Chills" df = Some (VStr "nan").
Proof.
  apply (make_input_df_categorical CAT_FALLBACK NUM_FALLBACK to_numeric_decimal
           [] "Chills").
  - apply distinctb_NoDup. vm_compute. reflexivity.
  - constructor.
  - apply inclb_incl with (l := [ "Chills" ]); [vm_compute; reflexivity |].
    left. reflexivity.
Defined.

(** ** Red-flag scorer *)

Lemma fold_left_tally (test : string -> bool) (l : list string) :
  forall score,
    fold_left (fun score k => if test k then score + 1 else score) l score
    = score + tally test l.
Proof.
  unfold tally.
  induction l as [| k l IH]; simpl; intros score.
  - lia.
  - rewrite IH. destruct (test k); simpl List.length; lia.
Qed.

Lemma tally_pointwise (f g : string -> bool) (l : list string) :
  (forall k, In k l -> f k = g k) -> tally f l = tally g l.
Proof.
  unfold tally. intros H. f_equal. f_equal.
  induction l as [| k l IH]; simpl.
  - reflexivity.
  - rewrite (H k) by (left; reflexivity).
    rewrite IH; [reflexivity |].
    intros j Hj. apply H. right. exact Hj.
Qed.

Lemma tally_mono (f g : string -> bool) (l : list string) :
  (forall k, In k l -> f k = true -> g k = true) -> tally f l <= tally g l.
Proof.
  unfold tally. intros H. apply inj_le.
  induction l as [| k l IH]; simpl.
  - lia.
  - assert (IH' : (List.length (filter f l) <= List.length (filter g l))%nat).
    { apply IH. intros j Hj. apply H. right. exact Hj. }
    destruct (f k) eqn:E.
    + rewrite (H k (or_introl eq_refl) E). simpl. lia.
    + destruct (g k); simpl; lia.
Qed.

Lemma tally_bounds (f : string -> bool) (l : list string) :
  0 <= tally f l <= Z.of_nat (List.length l).
Proof.
  unfold tally. split; [lia |]. apply inj_le. apply filter_length_le.
Qed.

(** The loop of the scorer over the severity keys tests this. *)
Lemma py_or_severity (pl : dict pyval) (sevk : string) :
  py_or (py_get sevk pl) (py_get (level_key sevk) pl) = severity_if_falsy pl sevk.
Proof.
  unfold py_or, severity_if_falsy, py_get at 1 2, dict_get_default.
  destruct (dict_get sevk pl) as [v |]; reflexivity.
Qed.

(** C2 (as amended).  The scorer returns the tally that starts at 0, adds
    one for each of the five danger-sign keys whose value equals "haa" and
    one for each of the four severity keys whose value, taken from the
    [_Level] key when the [_Severity] key is absent or holds a falsy value,
    equals "aad u daran".  When every severity answer the payload holds is
    truthy (as the tokens of the form are), taking the [_Level] key only for
    an absent [_Severity] key gives the same count.  The scorer is a function
    of the payload: it returns the count and nothing else. *)
Theorem compute_red_flag_count_tally (pl : dict pyval) :
  compute_red_flag_count pl = red_flag_tally pl
  /\ ((forall k v, In k SEVERITY_KEYS -> dict_get k pl = Some v -> truthy v = true) ->
      compute_red_flag_count pl = red_flag_tally_if_absent pl).
Proof.
  assert (H : compute_red_flag_count pl = red_flag_tally pl).
  { unfold compute_red_flag_count, red_flag_tally.
    rewrite (fold_left_tally (fun k => py_eq (py_get k pl) (VStr "haa"))).
    rewrite (fold_left_tally
               (fun sevk => py_eq (py_or (py_get sevk pl) (py_get (level_key sevk) pl))
                                  (VStr "aad u daran"))).
    f_equal. apply tally_pointwise. intros k _.
    rewrite py_or_severity. reflexivity. }
  split; [exact H |].
  intros Htruthy. rewrite H. unfold red_flag_tally, red_flag_tally_if_absent.
  f_equal. apply tally_pointwise. intros k Hk.
  unfold severity_if_falsy, severity_if_absent.
  destruct (dict_get k pl) as [v |] eqn:E; [| reflexivity].
  rewrite (Htruthy k v Hk E). reflexivity.
Qed.

(** A payload as the form builds it: the severity answers are tokens. *)
Lemma compute_red_flag_count_tally_witness :
  compute_red_flag_count
    [ ("Has_Headache", VStr "haa"); ("Headache_Severity", VStr "aad u daran");
      ("Neck_Stiffness", VStr "haa") ]
  = red_flag_tally_if_absent
      [ ("Has_Headache", VStr "haa"); ("Headache_Severity", VStr "aad u daran");
        ("Neck_Stiffness", VStr "haa") ].
Proof.
  apply (proj2 (compute_red_flag_count_tally
                  [ ("Has_Headache", VStr "haa");
                    ("Headache_Severity", VStr "aad u daran");
                    ("Neck_Stiffness", VStr "haa") ])).
  intros k v Hk. simpl in Hk.
  destruct Hk as [<- | [<- | [<- | [<- | []]]]]; simpl; intros E;
    inversion E; reflexivity.
Defined.

(** C2 as stated fails: with an empty [Fever_Severity] answer and a very
    severe [Fever_Level] the scorer counts the [_Level] answer although the
    [_Severity] key is present. *)
Lemma compute_red_flag_count_falsy_severity :
  compute_red_flag_count
    [ ("Fever_Severity", VStr ""); ("Fever_Level", VStr "aad u daran") ] = 1
  /\ red_flag_tally_if_absent
       [ ("Fever_Severity", VStr ""); ("Fever_Level", VStr "aad u daran") ] = 0
  /\ compute_red_flag_count
       [ ("Fever_Severity", VStr ""); ("Fever_Level", VStr "aad u daran") ]
     <> red_flag_tally_if_absent
          [ ("Fever_Severity", VStr ""); ("Fever_Level", VStr "aad u daran") ].
Proof.
  split; [vm_compute; reflexivity |]. split; [vm_compute; reflexivity |].
  vm_compute. intros H. discriminate H.
Qed.

(** The keys the scorer reads are pairwise different between the two loops. *)
Lemma danger_keys_apart :
  forallb (fun k =>
             forallb (fun j => negb (j =? k)%string && negb (level_key j =? k)%string)
                     SEVERITY_KEYS)
          DANGER_KEYS = true.
Proof. vm_compute. reflexivity. Qed.

Lemma severity_keys_apart :
  forallb (fun k => forallb (fun j => negb (j =? k)%string) DANGER_KEYS)
          (SEVERITY_KEYS ++ map level_key SEVERITY_KEYS) = true.
Proof. vm_compute. reflexivity. Qed.

Lemma py_get_set (k j : string) (v : pyval) (pl : dict pyval) :
  py_get j (dict_set k v pl) = if (j =? k)%string then v else py_get j pl.
Proof.
  unfold py_get, dict_get_default. rewrite dict_get_set.
  destruct (j =? k)%string; reflexivity.
Qed.

Lemma compute_red_flag_count_split (pl : dict pyval) :
  compute_red_flag_count pl
  = tally (fun k => py_eq (py_get k pl) (VStr "haa")) DANGER_KEYS
    + tally (fun sevk => py_eq (py_or (py_get sevk pl) (py_get (level_key sevk) pl))
                               (VStr "aad u daran")) SEVERITY_KEYS.
Proof.
  unfold compute_red_flag_count.
  rewrite (fold_left_tally (fun k => py_eq (py_get k pl) (VStr "haa"))).
  rewrite (fold_left_tally
             (fun sevk => py_eq (py_or (py_get sevk pl) (py_get (level_key sevk) pl))
                                (VStr "aad u daran"))).
  lia.
Qed.

Lemma yes_answer_monotone (pl : dict pyval) (k : string) :
  In k DANGER_KEYS ->
  compute_red_flag_count pl <= compute_red_flag_count (dict_set k (VStr "haa") pl).
Proof.
  intros Hk. rewrite !compute_red_flag_count_split.
  apply Z.add_le_mono.
  - apply tally_mono. intros j _ Hj. rewrite py_get_set.
    destruct (j =? k)%string; [reflexivity | exact Hj].
  - apply Z.eq_le_incl. apply tally_pointwise. intros j Hj.
    pose proof danger_keys_apart as Hap.
    rewrite forallb_forall in Hap. specialize (Hap k Hk).
    rewrite forallb_forall in Hap. specialize (Hap j Hj).
    apply andb_prop in Hap. destruct Hap as [H1 H2].
    apply negb_true_iff in H1, H2.
    rewrite !py_get_set, H1, H2. reflexivity.
Qed.

Lemma very_severe_answer_monotone (pl : dict pyval) (k : string) :
  In k (SEVERITY_KEYS ++ map level_key SEVERITY_KEYS) ->
  compute_red_flag_count pl
  <= compute_red_flag_count (dict_set k (VStr "aad u daran") pl).
Proof.
  intros Hk. rewrite !compute_red_flag_count_split.
  apply Z.add_le_mono.
  - apply Z.eq_le_incl. apply tally_pointwise. intros j Hj.
    pose proof severity_keys_apart as Hap.
    rewrite forallb_forall in Hap. specialize (Hap k Hk).
    rewrite forallb_forall in Hap. specialize (Hap j Hj).
    apply negb_true_iff in Hap.
    rewrite py_get_set, Hap. reflexivity.
  - apply tally_mono. intros j _ Hj. rewrite !py_get_set.
    destruct (j =? k)%string; [reflexivity |].
    destruct (level_key j =? k)%string; [| exact Hj].
    unfold py_or in *. destruct (truthy (py_get j pl)); [exact Hj | reflexivity].
Qed.

(** C3.  The count lies between 0 and 9, and it does not decrease when a
    danger-sign answer is set to "haa" or when a severity answer (under its
    [_Severity] or its [_Level] key) is set to "aad u daran". *)
Theorem compute_red_flag_count_bounded_monotone (pl : dict pyval) :
  0 <= compute_red_flag_count pl <= 9
  /\ (forall k, In k DANGER_KEYS ->
        compute_red_flag_count pl
        <= compute_red_flag_count (dict_set k (VStr "haa") pl))
  /\ (forall k, In k (SEVERITY_KEYS ++ map level_key SEVERITY_KEYS) ->
        compute_red_flag_count pl
        <= compute_red_flag_count (dict_set k (VStr "aad u daran") pl)).
Proof.
  split; [| split].
  - rewrite compute_red_flag_count_split.
    pose proof (tally_bounds (fun k => py_eq (py_get k pl) (VStr "haa")) DANGER_KEYS) as Hd.
    pose proof (tally_bounds
                  (fun sevk => py_eq (py_or (py_get sevk pl) (py_get (level_key sevk) pl))
                                     (VStr "aad u daran")) SEVERITY_KEYS) as Hs.
    simpl List.length in Hd, Hs. lia.
  - intros k. apply yes_answer_monotone.
  - intros k. apply very_severe_answer_monotone.
Qed.

(** A moderate headache made very severe, next to a stiff neck. *)
Lemma compute_red_flag_count_bounded_monotone_witness :
  compute_red_flag_count
    [ ("Neck_Stiffness", VStr "haa"); ("Headache_Severity", VStr "dhexdhexaad") ]
  <= compute_red_flag_count
       (dict_set "Headache_Severity" (VStr "aad u daran")
          [ ("Neck_Stiffness", VStr "haa"); ("Headache_Severity", VStr "dhexdhexaad") ]).
Proof.
  apply (proj2 (proj2 (compute_red_flag_count_bounded_monotone
                         [ ("Neck_Stiffness", VStr "haa");
                           ("Headache_Severity", VStr "dhexdhexaad") ]))).
  apply (inclb_incl [ "Headache_Severity" ]); [vm_compute; reflexivity |].
  left. reflexivity.
Defined.

(** ** Token mapper: durations *)

Lemma DUR_DISPLAY_TO_TOKEN_entries :
  DUR_DISPLAY_TO_TOKEN
  = [ ("≤ 1 day", "fudud"); ("2–3 days", "dhexdhexaad"); ("≥ 3 days", "aad u daran") ].
Proof. vm_compute. reflexivity. Qed.

Lemma DUR_DISPLAY_phrases :
  DUR_DISPLAY = [ "≤ 1 day"; "2–3 days"; "≥ 3 days" ].
Proof. vm_compute. reflexivity. Qed.

Lemma DUR_DISPLAY_TO_TOKEN_first (p : string) :
  dict_get p DUR_DISPLAY_TO_TOKEN = first_token_rendering p.
Proof.
  rewrite DUR_DISPLAY_TO_TOKEN_entries.
  unfold first_token_rendering, DUR_TOKEN_TO_DISPLAY. simpl.
  destruct (p =? "≤ 1 day")%string; [reflexivity |].
  destruct (p =? "2–3 days")%string; [reflexivity |].
  destruct (p =? "≥ 3 days")%string; reflexivity.
Qed.

(** C4.  [DUR_DISPLAY_TO_TOKEN] has exactly one entry for each displayed
    phrase, the first token of [DUR_TOKEN_TO_DISPLAY] that renders to the
    phrase; a token rendered to its phrase and mapped back (as the duration
    select box does) gives that first token.  The mapping is a constant, so
    every lookup of a phrase gives the same token. *)
Theorem DUR_DISPLAY_TO_TOKEN_canonical :
  dict_keys DUR_DISPLAY_TO_TOKEN = DUR_DISPLAY
  /\ NoDup DUR_DISPLAY
  /\ (forall p, dict_get p DUR_DISPLAY_TO_TOKEN = first_token_rendering p)
  /\ (forall k p, dict_get k DUR_TOKEN_TO_DISPLAY = Some p ->
        exists canon,
          first_token_rendering p = Some canon
          /\ dict_get p DUR_DISPLAY_TO_TOKEN = Some canon
          /\ dict_get_default p p DUR_DISPLAY_TO_TOKEN = canon
          /\ dict_get canon DUR_TOKEN_TO_DISPLAY = Some p).
Proof.
  split; [vm_compute; reflexivity |].
  split; [apply distinctb_NoDup; vm_compute; reflexivity |].
  split; [exact DUR_DISPLAY_TO_TOKEN_first |].
  intros k p Hk.
  unfold dict_get_default. rewrite DUR_DISPLAY_TO_TOKEN_first.
  unfold DUR_TOKEN_TO_DISPLAY in Hk. simpl in Hk.
  repeat match type of Hk with
         | context [String.eqb k ?t] => destruct (String.eqb k t)
         end;
    try discriminate Hk; inversion Hk; subst p;
    eexists; (split; [vm_compute; reflexivity |]);
    repeat split; vm_compute; reflexivity.
Qed.

(** Both spellings of the middle bucket come back as ["dhexdhexaad"]. *)
Lemma DUR_DISPLAY_TO_TOKEN_canonical_witness :
  exists canon,
    first_token_rendering "2–3 days" = Some canon
    /\ dict_get "2–3 days" DUR_DISPLAY_TO_TOKEN = Some canon
    /\ dict_get_default "2–3 days" "2–3 days" DUR_DISPLAY_TO_TOKEN = canon
    /\ dict_get canon DUR_TOKEN_TO_DISPLAY = Some "2–3 days".
Proof.
  apply (proj2 (proj2 (proj2 DUR_DISPLAY_TO_TOKEN_canonical)) "dhexdhexaad ah").
  reflexivity.
Defined.

(** ** Presentation mapper *)

Lemma prefix_lower (p s : string) :
  String.prefix p s = true -> String.prefix (PyStr.lower p) (PyStr.lower s) = true.
Proof.
  revert s. induction p as [| a p IH]; intros s H.
  - destruct s; reflexivity.
  - destruct s as [| b s]; simpl in *; [discriminate H |].
    destruct (ascii_dec a b) as [-> | Hab]; [| discriminate H].
    destruct (ascii_dec (PyStr.lower_ascii b) (PyStr.lower_ascii b)) as [_ | Hn];
      [exact (IH s H) | contradiction].
Qed.

Lemma contains_lower (p s : string) :
  PyStr.contains p s = true -> PyStr.contains (PyStr.lower p) (PyStr.lower s) = true.
Proof.
  induction s as [| b s IH]; intros H.
  - change (String.prefix p "" || false = true) in H.
    change (String.prefix (PyStr.lower p) (PyStr.lower "") || false = true).
    apply orb_true_iff in H. destruct H as [H | H]; [| discriminate H].
    rewrite (prefix_lower _ _ H). reflexivity.
  - change (String.prefix p (String b s) || PyStr.contains p s = true) in H.
    change (String.prefix (PyStr.lower p) (PyStr.lower (String b s))
            || PyStr.contains (PyStr.lower p) (PyStr.lower s) = true).
    apply orb_true_iff in H. apply orb_true_iff. destruct H as [H | H].
    + left. apply prefix_lower. exact H.
    + right. exact (IH H).
Qed.

(** C5 (as amended).  The scheme is red when the lower-cased token contains
    "deg deg", otherwise amber when the lower-cased token contains
    "dhax dhaxaad", otherwise green; [None] counts as the empty token.  A
    token that contains "deg deg" as it is gets red, whatever else it
    contains, and for a token without upper-case letters the markers are
    looked for in the token itself. *)
Theorem triage_style_from_token_lower (label_token : option string) :
  triage_style_from_token label_token
  = style_by_markers_in_token
      (PyStr.lower (match label_token with Some s => s | None => "" end))
  /\ (forall s, label_token = Some s ->
        PyStr.contains EMERGENCY_MARKER s = true ->
        triage_style_from_token label_token = RED)
  /\ (forall s, label_token = Some s ->
        PyStr.lower s = s ->
        triage_style_from_token label_token = style_by_markers_in_token s).
Proof.
  split; [reflexivity |]. split.
  - intros s -> H. unfold triage_style_from_token.
    apply contains_lower in H.
    change (PyStr.lower EMERGENCY_MARKER) with EMERGENCY_MARKER in H.
    rewrite H. reflexivity.
  - intros s -> H. unfold triage_style_from_token, style_by_markers_in_token.
    rewrite H. reflexivity.
Qed.

(** The four labels of the dictionaries: green for home care, amber for
    both spellings of the outpatient label, red for the emergency. *)
Lemma known_label_styles :
  map (fun tok => triage_style_from_token (Some tok)) (dict_keys LABEL_SO_TO_EN)
  = [ GREEN; AMBER; AMBER; RED ]
  /\ map style_by_markers_in_token (dict_keys LABEL_SO_TO_EN)
     = [ GREEN; AMBER; AMBER; RED ].
Proof. split; vm_compute; reflexivity. Qed.

(** A token with both markers. *)
Lemma triage_style_from_token_lower_witness :
  triage_style_from_token (Some "Xaalad deg deg ah / dhax dhaxaad") = RED.
Proof.
  apply (proj1 (proj2 (triage_style_from_token_lower
                         (Some "Xaalad deg deg ah / dhax dhaxaad")))
               "Xaalad deg deg ah / dhax dhaxaad").
  - reflexivity.
  - vm_compute. reflexivity.
Defined.

(** C5 as stated fails: an upper-case token contains neither marker, and
    gets the red scheme, not the green one. *)
Lemma triage_style_from_token_upper_case :
  PyStr.contains EMERGENCY_MARKER "XAALAD DEG DEG AH" = false
  /\ PyStr.contains MODERATE_MARKER "XAALAD DEG DEG AH" = false
  /\ style_by_markers_in_token "XAALAD DEG DEG AH" = GREEN
  /\ triage_style_from_token (Some "XAALAD DEG DEG AH") = RED
  /\ RED <> GREEN.
Proof.
  repeat split; try (vm_compute; reflexivity).
  intros H. discriminate H.
Qed.

(** ** Predictor adapter *)

(** C8.  [decode_label] never raises.  With a label encoder and an integer
    output it returns the token the encoder decodes to; without an encoder,
    for an output that is no integer, and when the encoder raises, it returns
    [str(y)]. *)
Theorem decode_label_total (le : option (pyval -> exc pyval)) (y : pyval) :
  decode_label le y
  = Ret (match le with
         | Some inverse_transform =>
             if isinstance_int y
             then match inverse_transform y with
                  | Ret tok => tok
                  | Raise _ => VStr (py_str y)
                  end
             else VStr (py_str y)
         | None => VStr (py_str y)
         end).
Proof.
  unfold decode_label.
  destruct le as [inverse_transform |]; simpl; [| reflexivity].
  destruct (isinstance_int y); simpl; [| reflexivity].
  destruct (inverse_transform y); reflexivity.
Qed.

(** ** Display label and advice *)

(** C9.  A token that is no key of the label dictionaries is displayed as
    it is, with the general advice; a token that is a key gets the entries
    of the two dictionaries, which have the same keys. *)
Theorem label_and_tip_lookup (label_token : string) :
  (dict_get label_token LABEL_SO_TO_EN = None -> label_en label_token = label_token)
  /\ (dict_get label_token TRIAGE_TIPS = None -> tip_text label_token = GENERAL_ADVICE)
  /\ (forall e, dict_get label_token LABEL_SO_TO_EN = Some e -> label_en label_token = e)
  /\ (forall t, dict_get label_token TRIAGE_TIPS = Some t -> tip_text label_token = t)
  /\ dict_mem label_token LABEL_SO_TO_EN = dict_mem label_token TRIAGE_TIPS.
Proof.
  unfold label_en, tip_text, dict_get_default, dict_mem.
  split; [intros ->; reflexivity |].
  split; [intros ->; reflexivity |].
  split; [intros e ->; reflexivity |].
  split.
  - intros t H. rewrite H.
    unfold TRIAGE_TIPS in H. simpl in H.
    repeat match type of H with
           | context [String.eqb label_token ?k] =>
               destruct (String.eqb label_token k)
           end;
      try discriminate H; inversion H; reflexivity.
  - unfold LABEL_SO_TO_EN, TRIAGE_TIPS. simpl.
    repeat match goal with
           | |- context [String.eqb label_token ?k] =>
               destruct (String.eqb label_token k)
           end; reflexivity.
Qed.

(** The emergency label and a label the dictionaries do not know. *)
Lemma label_and_tip_lookup_witness :
  label_en "Xaalad deg deg ah" = "Emergency"
  /\ tip_text "Xaalad deg deg ah" = TIP_EMERGENCY
  /\ label_en "2" = "2"
  /\ tip_text "2" = GENERAL_ADVICE.
Proof.
  split; [| split; [| split]].
  - apply (proj1 (proj2 (proj2 (label_and_tip_lookup "Xaalad deg deg ah")))).
    reflexivity.
  - apply (proj1 (proj2 (proj2 (proj2 (label_and_tip_lookup "Xaalad deg deg ah"))))).
    reflexivity.
  - apply (proj1 (label_and_tip_lookup "2")). reflexivity.
  - apply (proj1 (proj2 (label_and_tip_lookup "2"))). reflexivity.
Defined.

(** ** The form *)

Lemma dict_keys_set_iff (V : Type) (k j : string) (v : V) (d : dict V) :
  In j (dict_keys (dict_set k v d)) <-> j = k \/ In j (dict_keys d).
Proof.
  destruct (in_dec string_dec k (dict_keys d)) as [H | H].
  - rewrite dict_keys_set_in by exact H. split; [auto |].
    intros [-> | Hj]; assumption.
  - rewrite dict_keys_set_notin by exact H. rewrite in_app_iff. simpl.
    split; [intros [Hj | [<- | []]]; auto | intros [-> | Hj]; auto].
Qed.

Lemma dict_set_NoDup (V : Type) (k : string) (v : V) (d : dict V) :
  NoDup (dict_keys d) -> NoDup (dict_keys (dict_set k v d)).
Proof.
  induction d as [| [k' v'] d IH]; simpl; intros H.
  - constructor; [intros [] | constructor].
  - inversion H as [| ? ? Hk' Hd]; subst.
    destruct (k =? k')%string eqn:E; simpl.
    + constructor; assumption.
    + constructor; [| exact (IH Hd)].
      rewrite dict_keys_set_iff. intros [-> | Hin]; [| contradiction].
      rewrite String.eqb_refl in E. discriminate E.
Qed.

Lemma dict_get_values (V : Type) (k : string) (v : V) (d : dict V) :
  dict_get k d = Some v -> In v (dict_values d).
Proof.
  induction d as [| [k' v'] d IH]; simpl; intros H.
  - discriminate H.
  - destruct (k =? k')%string; [inversion H; left; reflexivity | right; exact (IH H)].
Qed.

Lemma st_multiselect_incl (options : list string) (picked : list nat) :
  incl (st_multiselect options picked) options.
Proof.
  induction picked as [| i picked IH]; simpl.
  - intros k [].
  - destruct (nth_error options i) as [o |] eqn:E; [| exact IH].
    intros k [<- | Hk]; [exact (nth_error_In _ _ E) | exact (IH k Hk)].
Qed.

Lemma py_eq_get_token (k s : string) (pl : dict pyval) :
  py_eq (py_get k pl) (VStr s) = true <-> dict_get k pl = Some (VStr s).
Proof.
  unfold py_get, dict_get_default.
  destruct (dict_get k pl) as [[| b | z | | t] |]; simpl;
    try (split; [intros H; discriminate H | intros H; inversion H]).
  rewrite String.eqb_eq. split; [intros -> | intros H; inversion H]; reflexivity.
Qed.

Lemma ask_fields_get_other (u : ui) (group : string) (cfg : symptom) (k : string) :
  ~ In k (field_columns cfg) ->
  forall pl, dict_get k (ask_fields u group cfg pl) = dict_get k pl.
Proof.
  unfold ask_fields, field_columns.
  induction (fields cfg) as [| [[col label] wtype] l IH]; simpl; intros Hk pl.
  - reflexivity.
  - rewrite IH by (intros H; apply Hk; right; exact H).
    destruct (render_select _ _ _ _);
      [| reflexivity].
    apply dict_get_set_other. intros ->. apply Hk. left. reflexivity.
Qed.

Lemma ask_fields_NoDup (u : ui) (group : string) (cfg : symptom) :
  forall pl, NoDup (dict_keys pl) -> NoDup (dict_keys (ask_fields u group cfg pl)).
Proof.
  unfold ask_fields.
  induction (fields cfg) as [| [[col label] wtype] l IH]; simpl; intros pl H.
  - exact H.
  - apply IH.
    destruct (render_select _ _ _ _);
      [apply dict_set_NoDup |]; exact H.
Qed.

Lemma SYMPTOMS_keep_derived :
  forallb group_keeps_derived (dict_values SYMPTOMS) = true.
Proof. vm_compute. reflexivity. Qed.

(** Selecting a group of the table does not raise and keeps [flags_set]. *)
Lemma select_group_flags_set (u : ui) (group : string) (pl : dict pyval) :
  In group (dict_keys SYMPTOMS) -> flags_set pl ->
  exists pl', select_group u pl group = Ret pl' /\ flags_set pl'.
Proof.
  intros Hg [Hnd [Hfwf Hflags]].
  destruct (dict_get_some_keys _ _ _ Hg) as [cfg Hcfg].
  unfold select_group, dict_subscript. rewrite Hcfg. simpl.
  eexists. split; [reflexivity |].
  pose proof SYMPTOMS_keep_derived as Hok. rewrite forallb_forall in Hok.
  specialize (Hok cfg (dict_get_values _ _ _ _ Hcfg)).
  unfold group_keeps_derived in Hok.
  apply andb_prop in Hok. destruct Hok as [Hok Hcols].
  apply andb_prop in Hok. destruct Hok as [Hf1 Hf2].
  apply negb_true_iff in Hf1, Hf2.
  rewrite forallb_forall in Hcols.
  split; [| split].
  - apply ask_fields_NoDup. apply dict_set_NoDup. exact Hnd.
  - rewrite ask_fields_get_other.
    + rewrite dict_get_set, Hf2. exact Hfwf.
    + intros Hin. apply existsb_eqb_In in Hin. rewrite Hin in Hf1. discriminate Hf1.
  - intros f Hf. rewrite ask_fields_get_other.
    + rewrite dict_get_set. destruct (f =? flag cfg)%string; [left; reflexivity |].
      exact (Hflags f Hf).
    + intros Hin. apply existsb_eqb_In in Hin.
      specialize (Hcols f Hf). rewrite Hin in Hcols. discriminate Hcols.
Qed.

Lemma foldM_select_group (u : ui) (selected : list string) :
  incl selected (dict_keys SYMPTOMS) ->
  forall pl, flags_set pl ->
    exists pl', foldM (select_group u) selected pl = Ret pl' /\ flags_set pl'.
Proof.
  induction selected as [| g selected IH]; simpl; intros Hincl pl Hpl.
  - exists pl. split; [reflexivity | exact Hpl].
  - destruct (select_group_flags_set u g pl) as [pl1 [Hret Hpl1]];
      [apply Hincl; left; reflexivity | exact Hpl |].
    rewrite Hret. simpl. apply IH; [| exact Hpl1].
    intros k Hk. apply Hincl. right. exact Hk.
Qed.

(** The age group, when picked, is one of the options and so a key of
    [AGE_MAP]: the start of the payload does not raise, and the defaults
    establish [flags_set]. *)
Lemma payload_with_age_defaults (u : ui) :
  exists pl, payload_with_age u = Ret pl /\ flags_set (default_flags pl).
Proof.
  assert (Hflags : forall pl,
             dict_get "Fever_With_Fatigue" (default_flags pl) = None ->
             NoDup (dict_keys (default_flags pl)) ->
             forallb (fun f => py_eq (py_get f (default_flags pl)) (VStr "maya"))
                     ALL_FLAGS = true ->
             flags_set (default_flags pl)).
  { intros pl H1 H2 H3. split; [exact H2 |]. split; [exact H1 |].
    intros f Hf. right. rewrite forallb_forall in H3.
    apply py_eq_get_token. exact (H3 f Hf). }
  unfold payload_with_age.
  destruct (age_choice u) as [[| [| [| i]]] |]; simpl.
  - eexists. split; [reflexivity |].
    apply Hflags; [| apply distinctb_NoDup |]; vm_compute; reflexivity.
  - eexists. split; [reflexivity |].
    apply Hflags; [| apply distinctb_NoDup |]; vm_compute; reflexivity.
  - eexists. split; [reflexivity |].
    apply Hflags; [| apply distinctb_NoDup |]; vm_compute; reflexivity.
  - destruct i; simpl; eexists; (split; [reflexivity |]);
      (apply Hflags; [| apply distinctb_NoDup |]; vm_compute; reflexivity).
  - eexists. split; [reflexivity |].
    apply Hflags; [| apply distinctb_NoDup |]; vm_compute; reflexivity.
Qed.

Lemma derive_fever_with_fatigue_flags (pl : dict pyval) :
  flags_set pl ->
  let pl' := derive_fever_with_fatigue pl in
  NoDup (dict_keys pl')
  /\ (dict_get "Fever_With_Fatigue" pl' = Some (VStr "haa")
      <-> dict_get "Has_Fever" pl' = Some (VStr "haa")
          /\ dict_get "Has_Fatigue" pl' = Some (VStr "haa"))
  /\ (dict_get "Fever_With_Fatigue" pl' = Some (VStr "haa")
      \/ dict_get "Fever_With_Fatigue" pl' = None)
  /\ (forall f, In f ALL_FLAGS ->
        dict_get f pl' = Some (VStr "haa") \/ dict_get f pl' = Some (VStr "maya")).
Proof.
  intros [Hnd [Hfwf Hflags]]. unfold derive_fever_with_fatigue. simpl.
  destruct (py_eq (py_get "Has_Fever" pl) (VStr "haa")
            && py_eq (py_get "Has_Fatigue" pl) (VStr "haa")) eqn:E.
  - apply andb_prop in E. destruct E as [E1 E2].
    apply py_eq_get_token in E1, E2.
    split; [apply dict_set_NoDup; exact Hnd |].
    split; [| split].
    + rewrite !dict_get_set. simpl. tauto.
    + left. apply dict_get_set_same.
    + intros f Hf. rewrite dict_get_set.
      destruct (f =? "Fever_With_Fatigue")%string; [left; reflexivity |].
      exact (Hflags f Hf).
  - split; [exact Hnd |]. split; [| split].
    + rewrite Hfwf. split; [intros H; discriminate H |].
      intros [H1 H2]. apply py_eq_get_token in H1, H2.
      rewrite H1, H2 in E. discriminate E.
    + right. exact Hfwf.
    + exact Hflags.
Qed.

Lemma add_red_flag_count_get (NUM_COLS : list string) (pl : dict pyval) (k : string) :
  (k =? "Red_Flag_Count")%string = false ->
  dict_get k (add_red_flag_count NUM_COLS pl) = dict_get k pl.
Proof.
  intros H. unfold add_red_flag_count.
  destruct (existsb _ NUM_COLS); [| reflexivity].
  rewrite dict_get_set, H. reflexivity.
Qed.

Lemma add_red_flag_count_NoDup (NUM_COLS : list string) (pl : dict pyval) :
  NoDup (dict_keys pl) -> NoDup (dict_keys (add_red_flag_count NUM_COLS pl)).
Proof.
  intros H. unfold add_red_flag_count.
  destruct (existsb _ NUM_COLS); [apply dict_set_NoDup |]; exact H.
Qed.

Lemma ALL_FLAGS_not_count :
  forallb (fun f => negb (f =? "Red_Flag_Count")%string) ALL_FLAGS = true.
Proof. vm_compute. reflexivity. Qed.

(** C10 (what the code does).  The form always builds a payload.  In it
    [Fever_With_Fatigue] is "haa" exactly when [Has_Fever] and [Has_Fatigue]
    are both "haa", and is absent otherwise (never "maya"), while each of the
    six [Has_*] flags is present as "haa" or "maya".  When the key is absent,
    the assembler, on a schema of distinct names with the categorical column
    [Fever_With_Fatigue], writes the text "nan" in that column, not a null. *)
Theorem build_payload_fever_with_fatigue
        (CAT_COLS NUM_COLS : list string) (pd_to_numeric : pyval -> exc pyval)
        (u : ui) :
  exists pl,
    build_payload NUM_COLS u = Ret pl
    /\ (dict_get "Fever_With_Fatigue" pl = Some (VStr "haa")
        <-> dict_get "Has_Fever" pl = Some (VStr "haa")
            /\ dict_get "Has_Fatigue" pl = Some (VStr "haa"))
    /\ (dict_get "Fever_With_Fatigue" pl = Some (VStr "haa")
        \/ dict_get "Fever_With_Fatigue" pl = None)
    /\ (forall f, In f ALL_FLAGS ->
          dict_get f pl = Some (VStr "haa") \/ dict_get f pl = Some (VStr "maya"))
    /\ (NoDup (EXPECTED_COLS CAT_COLS NUM_COLS) ->
        In "Fever_With_Fatigue" CAT_COLS ->
        dict_get "Fever_With_Fatigue" pl = None ->
        exists df,
          make_input_df CAT_COLS NUM_COLS pd_to_numeric (Some pl) = Ret df
          /\ value_at "Fever_With_Fatigue" df = Some (VStr "nan")).
Proof.
  destruct (payload_with_age_defaults u) as [pl0 [H0 Hinv0]].
  destruct (foldM_select_group u
              (st_multiselect (dict_keys SYMPTOMS) (picked_symptoms u))
              (st_multiselect_incl _ _) (default_flags pl0) Hinv0)
    as [pl1 [H1 Hinv1]].
  destruct (derive_fever_with_fatigue_flags pl1 Hinv1) as [Hnd [Hiff [Hor Hfl]]].
  exists (add_red_flag_count NUM_COLS (derive_fever_with_fatigue pl1)).
  split.
  { unfold build_payload. rewrite H0. cbn [bind]. rewrite H1. reflexivity. }
  rewrite !add_red_flag_count_get by reflexivity.
  split; [exact Hiff |]. split; [exact Hor |]. split.
  - intros f Hf. rewrite add_red_flag_count_get; [exact (Hfl f Hf) |].
    pose proof ALL_FLAGS_not_count as Hc. rewrite forallb_forall in Hc.
    apply negb_true_iff. exact (Hc f Hf).
  - intros Hschema Hcat Habsent.
    destruct (make_input_df_categorical_cell CAT_COLS NUM_COLS pd_to_numeric
                (add_red_flag_count NUM_COLS (derive_fever_with_fatigue pl1))
                "Fever_With_Fatigue" Hschema
                (add_red_flag_count_NoDup NUM_COLS _ Hnd) Hcat)
      as [df [Hret Hval]].
    exists df. split; [exact Hret |].
    rewrite Hval, add_red_flag_count_get by reflexivity.
    rewrite Habsent. reflexivity.
Qed.

(** The form with nothing picked, on the built-in schema: the key is absent
    from the payload and the table holds the text "nan" for it. *)
Lemma build_payload_fever_with_fatigue_witness :
  exists pl,
    build_payload NUM_FALLBACK ui_empty = Ret pl
    /\ dict_get "Fever_With_Fatigue" pl = None
    /\ exists df,
         make_input_df CAT_FALLBACK NUM_FALLBACK to_numeric_decimal (Some pl) = Ret df
         /\ value_at "Fever_With_Fatigue" df = Some (VStr "nan").
Proof.
  destruct (build_payload_fever_with_fatigue
              CAT_FALLBACK NUM_FALLBACK to_numeric_decimal ui_empty)
    as [pl [Hret [_ [_ [_ Hnan]]]]].
  assert (Habsent : dict_get "Fever_With_Fatigue" pl = None).
  { vm_compute in Hret. inversion Hret. reflexivity. }
  exists pl. split; [exact Hret |]. split; [exact Habsent |].
  apply Hnan.
  - apply distinctb_NoDup. vm_compute. reflexivity.
  - apply (inclb_incl [ "Fever_With_Fatigue" ]); [vm_compute; reflexivity |].
    left. reflexivity.
  - exact Habsent.
Defined.

(** ** The form on the built-in schema: only schema columns are written *)

Lemma dict_setdefault_keys (V : Type) (k j : string) (v : V) (d : dict V) :
  In j (dict_keys (dict_setdefault k v d)) -> j = k \/ In j (dict_keys d).
Proof.
  unfold dict_setdefault. destruct (dict_mem k d); [auto |].
  apply dict_keys_set_iff.
Qed.

Lemma default_flags_keys (j : string) :
  forall pl, In j (dict_keys (default_flags pl)) ->
             In j ALL_FLAGS \/ In j (dict_keys pl).
Proof.
  unfold default_flags.
  induction ALL_FLAGS as [| f l IH]; simpl; intros pl H.
  - right. exact H.
  - destruct (IH _ H) as [Hl | Hd]; [left; right; exact Hl |].
    apply dict_setdefault_keys in Hd. destruct Hd as [-> | Hd]; auto.
Qed.

Lemma ask_fields_keys (u : ui) (group : string) (cfg : symptom) (j : string) :
  forall pl, In j (dict_keys (ask_fields u group cfg pl)) ->
             In j (field_columns cfg) \/ In j (dict_keys pl).
Proof.
  unfold ask_fields, field_columns.
  induction (fields cfg) as [| [[col label] wtype] l IH]; simpl; intros pl H.
  - right. exact H.
  - destruct (IH _ H) as [Hl | Hd]; [left; right; exact Hl |].
    destruct (render_select _ _ _ _); [| right; exact Hd].
    apply dict_keys_set_iff in Hd. destruct Hd as [-> | Hd]; auto.
Qed.

Lemma SYMPTOMS_in_schema : forallb group_in_schema (dict_values SYMPTOMS) = true.
Proof. vm_compute. reflexivity. Qed.

Lemma select_group_keys (u : ui) (group : string) (pl pl' : dict pyval) :
  select_group u pl group = Ret pl' ->
  incl (dict_keys pl) (EXPECTED_COLS CAT_FALLBACK NUM_FALLBACK) ->
  incl (dict_keys pl') (EXPECTED_COLS CAT_FALLBACK NUM_FALLBACK).
Proof.
  unfold select_group, dict_subscript.
  destruct (dict_get group SYMPTOMS) as [cfg |] eqn:Hcfg; simpl;
    [| intros H; discriminate H].
  intros H Hincl. inversion H; subst pl'. clear H.
  pose proof SYMPTOMS_in_schema as Hok. rewrite forallb_forall in Hok.
  specialize (Hok cfg (dict_get_values _ _ _ _ Hcfg)).
  unfold group_in_schema in Hok. rewrite forallb_forall in Hok.
  intros j Hj. apply ask_fields_keys in Hj.
  destruct Hj as [Hj | Hj].
  - apply existsb_eqb_In. apply Hok. right. exact Hj.
  - apply dict_keys_set_iff in Hj. destruct Hj as [-> | Hj].
    + apply existsb_eqb_In. apply Hok. left. reflexivity.
    + exact (Hincl j Hj).
Qed.

Lemma foldM_select_group_keys (u : ui) (selected : list string) :
  forall pl pl',
    foldM (select_group u) selected pl = Ret pl' ->
    incl (dict_keys pl) (EXPECTED_COLS CAT_FALLBACK NUM_FALLBACK) ->
    incl (dict_keys pl') (EXPECTED_COLS CAT_FALLBACK NUM_FALLBACK).
Proof.
  induction selected as [| g selected IH]; simpl; intros pl pl' H Hincl.
  - inversion H; subst. exact Hincl.
  - destruct (select_group u pl g) as [pl1 | e] eqn:E; simpl in H;
      [| discriminate H].
    exact (IH pl1 pl' H (select_group_keys u g pl pl1 E Hincl)).
Qed.

Lemma payload_with_age_keys (u : ui) (pl : dict pyval) :
  payload_with_age u = Ret pl ->
  incl (dict_keys pl) (EXPECTED_COLS CAT_FALLBACK NUM_FALLBACK).
Proof.
  unfold payload_with_age.
  destruct (age_choice u) as [[| [| [| i]]] |]; simpl;
    try (destruct i; simpl);
    intros H; inversion H; subst pl; apply inclb_incl; vm_compute; reflexivity.
Qed.

(** On the built-in schema the form always builds a payload, and all its
    keys are schema columns. *)
Lemma build_payload_keys_in_schema (u : ui) :
  exists pl,
    build_payload NUM_FALLBACK u = Ret pl
    /\ incl (dict_keys pl) (EXPECTED_COLS CAT_FALLBACK NUM_FALLBACK).
Proof.
  destruct (payload_with_age_defaults u) as [pl0 [H0 Hinv0]].
  destruct (foldM_select_group u
              (st_multiselect (dict_keys SYMPTOMS) (picked_symptoms u))
              (st_multiselect_incl _ _) (default_flags pl0) Hinv0)
    as [pl1 [H1 _]].
  exists (add_red_flag_count NUM_FALLBACK (derive_fever_with_fatigue pl1)).
  split.
  { unfold build_payload. rewrite H0. cbn [bind]. rewrite H1. reflexivity. }
  assert (H1k : incl (dict_keys pl1) (EXPECTED_COLS CAT_FALLBACK NUM_FALLBACK)).
  { apply (foldM_select_group_keys u _ _ _ H1).
    intros j Hj. apply default_flags_keys in Hj. destruct Hj as [Hj | Hj].
    - revert j Hj. apply inclb_incl. vm_compute. reflexivity.
    - exact (payload_with_age_keys u pl0 H0 j Hj). }
  intros j Hj. unfold add_red_flag_count in Hj. simpl existsb in Hj.
  apply dict_keys_set_iff in Hj. destruct Hj as [-> | Hj].
  - apply existsb_eqb_In. vm_compute. reflexivity.
  - unfold derive_fever_with_fatigue in Hj.
    destruct (_ && _) in Hj; [| exact (H1k j Hj)].
    apply dict_keys_set_iff in Hj. destruct Hj as [-> | Hj].
    + apply existsb_eqb_In. vm_compute. reflexivity.
    + exact (H1k j Hj).
Qed.

(** ** Select boxes *)

(** One widget type of [render_select], the index picked being known. *)
Ltac picked_cases u key :=
  destruct (choice u key) as [[| [| [| i]]] |]; try (destruct i);
  vm_compute.

Lemma render_select_token (u : ui) (label wtype key tok : string) :
  render_select u label wtype key = Some tok ->
  In tok (widget_tokens wtype) /\ tok <> ""%string.
Proof.
  unfold render_select, widget_tokens, st_selectbox.
  destruct (wtype =? "yn")%string;
    [| destruct (wtype =? "sev")%string;
       [| destruct (wtype =? "cough")%string;
          [| destruct (wtype =? "painloc")%string;
             [| destruct (wtype =? "dur")%string;
                [| intros H; discriminate H]]]]];
    picked_cases u key; intros H; try discriminate H;
    inversion H; subst tok; (split; [tauto | intros E; discriminate E]).
Qed.

(** X1.  A select box of the form gives no value exactly when no option of
    it is picked: every option shown has an entry in the map of its widget
    type.  A value it gives is one of the tokens of that map, never empty. *)
Theorem render_select_vocabulary (u : ui) (label wtype key : string) :
  (render_select u label wtype key = None
   <-> st_selectbox (widget_options wtype) (choice u key) = None)
  /\ (forall tok, render_select u label wtype key = Some tok ->
        In tok (widget_tokens wtype) /\ tok <> ""%string).
Proof.
  split; [| intros tok; apply render_select_token].
  unfold render_select, widget_options, st_selectbox.
  destruct (wtype =? "yn")%string;
    [| destruct (wtype =? "sev")%string;
       [| destruct (wtype =? "cough")%string;
          [| destruct (wtype =? "painloc")%string;
             [| destruct (wtype =? "dur")%string;
                [| destruct (choice u key) as [i |]; [destruct i |];
                   split; reflexivity]]]]];
    picked_cases u key; split; intros H; try discriminate H; reflexivity.
Qed.

(** The duration box with its third option picked. *)
Lemma render_select_vocabulary_witness :
  In "aad u daran" (widget_tokens "dur") /\ "aad u daran" <> ""%string.
Proof.
  apply (proj2 (render_select_vocabulary
                  {| age_choice := None; picked_symptoms := [];
                     choice := fun _ => Some 2%nat |}
                  "Fever duration" "dur" "Fever:Fever_Duration_Level")).
  vm_compute. reflexivity.
Defined.

(** ** The payload reflects what was picked *)

Lemma dict_get_In (V : Type) (k : string) (v : V) (d : dict V) :
  dict_get k d = Some v -> In (k, v) d.
Proof.
  induction d as [| [k' v'] d IH]; simpl; intros H.
  - discriminate H.
  - destruct (k =? k')%string eqn:E.
    + apply String.eqb_eq in E. inversion H; subst. left. reflexivity.
    + right. exact (IH H).
Qed.

Lemma SYMPTOMS_apart :
  forallb (fun p => forallb (groups_apart p) SYMPTOMS) SYMPTOMS = true.
Proof. vm_compute. reflexivity. Qed.

Lemma SYMPTOMS_fresh : forallb group_columns_fresh SYMPTOMS = true.
Proof. vm_compute. reflexivity. Qed.

(** The facts of the table for two groups given by their names. *)
Lemma groups_apart_facts (g g0 : string) (cfg cfg0 : symptom) :
  dict_get g SYMPTOMS = Some cfg -> dict_get g0 SYMPTOMS = Some cfg0 ->
  (flag cfg =? flag cfg0)%string = (g =? g0)%string
  /\ ~ In (flag cfg) (field_columns cfg0)
  /\ ((g =? g0)%string = false ->
      forall col, In col (field_columns cfg) -> ~ In col (field_columns cfg0)).
Proof.
  intros Hg Hg0.
  pose proof SYMPTOMS_apart as H. rewrite forallb_forall in H.
  specialize (H _ (dict_get_In _ _ _ _ Hg0)). rewrite forallb_forall in H.
  specialize (H _ (dict_get_In _ _ _ _ Hg)).
  unfold groups_apart in H. simpl fst in H. simpl snd in H.
  apply andb_prop in H. destruct H as [H H3].
  apply andb_prop in H. destruct H as [H1 H2].
  apply Bool.eqb_prop in H1. apply negb_true_iff in H2.
  split; [exact H1 |]. split.
  - intros Hin. apply existsb_eqb_In in Hin. rewrite Hin in H2. discriminate H2.
  - intros Hne col Hcol Hin. rewrite Hne in H3. simpl in H3.
    rewrite forallb_forall in H3. specialize (H3 col Hcol).
    apply existsb_eqb_In in Hin. rewrite Hin in H3. discriminate H3.
Qed.

Lemma group_fresh_facts (g : string) (cfg : symptom) :
  dict_get g SYMPTOMS = Some cfg ->
  NoDup (field_columns cfg)
  /\ (forall col, In col (field_columns cfg) ->
        ~ In col ("Fever_With_Fatigue" :: "Red_Flag_Count" :: base_keys))
  /\ ~ In (flag cfg) [ "Fever_With_Fatigue"; "Red_Flag_Count"; "Age_Group" ].
Proof.
  intros Hg.
  pose proof SYMPTOMS_fresh as H. rewrite forallb_forall in H.
  specialize (H _ (dict_get_In _ _ _ _ Hg)).
  unfold group_columns_fresh in H. simpl snd in H.
  apply andb_prop in H. destruct H as [H H3].
  apply andb_prop in H. destruct H as [H1 H2].
  split; [exact (distinctb_NoDup _ H1) |]. split.
  - intros col Hcol Hin. rewrite forallb_forall in H2. specialize (H2 col Hcol).
    apply existsb_eqb_In in Hin. rewrite Hin in H2. discriminate H2.
  - intros Hin. apply existsb_eqb_In in Hin. rewrite Hin in H3. discriminate H3.
Qed.

(** The follow-up questions of a group leave in each of its columns the
    answer given, or what the column held when no answer is given. *)
Lemma ask_fields_get_field (u : ui) (group : string) (cfg : symptom)
      (f : string * string * string) :
  NoDup (field_columns cfg) -> In f (fields cfg) ->
  forall pl,
    dict_get (fst (fst f)) (ask_fields u group cfg pl)
    = match answer u group f with
      | Some v => Some v
      | None => dict_get (fst (fst f)) pl
      end.
Proof.
  destruct cfg as [fl l]. unfold field_columns. simpl fields.
  induction l as [| f0 l IH]; intros Hnd Hin pl.
  - destruct Hin.
  - simpl in Hnd. inversion Hnd as [| ? ? Hf0 Hnd']; subst.
    change (ask_fields u group {| flag := fl; fields := f0 :: l |} pl)
      with (ask_fields u group {| flag := fl; fields := l |}
              (let '(col, label, wtype) := f0 in
               match render_select u label wtype (group ++ ":" ++ col)%string with
               | Some val => dict_set col (VStr val) pl
               | None => pl
               end)).
    destruct Hin as [<- | Hin].
    + rewrite ask_fields_get_other by exact Hf0.
      destruct f0 as [[col label] wtype]. unfold answer. simpl fst.
      destruct (render_select u label wtype (group ++ ":" ++ col)%string); simpl.
      * apply dict_get_set_same.
      * reflexivity.
    + rewrite (IH Hnd' Hin).
      destruct (answer u group f); [reflexivity |].
      destruct f0 as [[col label] wtype]. simpl in Hf0.
      destruct (render_select u label wtype (group ++ ":" ++ col)%string);
        [| reflexivity].
      apply dict_get_set_other. intros E. apply Hf0. rewrite <- E.
      apply in_map with (f := fun x : string * string * string => fst (fst x)).
      exact Hin.
Qed.

Lemma reflects_ext (u : ui) (done done' : string -> bool) (pl : dict pyval) :
  (forall g, done g = done' g) -> reflects u done pl -> reflects u done' pl.
Proof.
  intros E [Hf Hc]. split.
  - intros g cfg Hg. rewrite <- E. exact (Hf g cfg Hg).
  - intros g cfg f Hg Hin. rewrite <- E. exact (Hc g cfg f Hg Hin).
Qed.

Lemma select_group_reflects (u : ui) (done : string -> bool)
      (g0 : string) (pl pl' : dict pyval) :
  select_group u pl g0 = Ret pl' ->
  reflects u done pl ->
  reflects u (fun g => (g =? g0)%string || done g) pl'.
Proof.
  unfold select_group, dict_subscript.
  destruct (dict_get g0 SYMPTOMS) as [cfg0 |] eqn:Hg0; simpl;
    [| intros H; discriminate H].
  intros H [Hflags Hcols]. inversion H; subst pl'. clear H.
  destruct (group_fresh_facts g0 cfg0 Hg0) as [Hnd0 [Hfresh0 _]].
  split.
  - intros g cfg Hg.
    destruct (groups_apart_facts g g0 cfg cfg0 Hg Hg0) as [Hfl [Hnf _]].
    rewrite ask_fields_get_other by exact Hnf.
    rewrite dict_get_set, Hfl.
    destruct (g =? g0)%string; simpl; [reflexivity | exact (Hflags g cfg Hg)].
  - intros g cfg f Hg Hin.
    assert (Hcol : In (fst (fst f)) (field_columns cfg))
      by (apply in_map with (f := fun x : string * string * string => fst (fst x));
          exact Hin).
    destruct (g =? g0)%string eqn:E; simpl.
    + apply String.eqb_eq in E. subst g.
      rewrite Hg0 in Hg. inversion Hg; subst cfg.
      rewrite (ask_fields_get_field u g0 cfg0 f Hnd0 Hin).
      destruct (answer u g0 f) as [v |] eqn:Ha; [reflexivity |].
      rewrite dict_get_set_other.
      * rewrite (Hcols g0 cfg0 f Hg0 Hin), Ha.
        destruct (done g0); reflexivity.
      * intros Eq.
        destruct (groups_apart_facts g0 g0 cfg0 cfg0 Hg0 Hg0) as [_ [Hnf _]].
        apply Hnf. rewrite <- Eq. exact Hcol.
    + destruct (groups_apart_facts g g0 cfg cfg0 Hg Hg0) as [_ [_ Hdisj]].
      rewrite ask_fields_get_other by exact (Hdisj E _ Hcol).
      rewrite dict_get_set_other; [exact (Hcols g cfg f Hg Hin) |].
      intros Eq.
      destruct (groups_apart_facts g0 g cfg0 cfg Hg0 Hg) as [_ [Hnf _]].
      apply Hnf. rewrite <- Eq. exact Hcol.
Qed.

Lemma foldM_select_group_reflects (u : ui) (selected : list string) :
  forall (done : string -> bool) (pl pl' : dict pyval),
    foldM (select_group u) selected pl = Ret pl' ->
    reflects u done pl ->
    reflects u (fun g => existsb (String.eqb g) selected || done g) pl'.
Proof.
  induction selected as [| g0 selected IH]; simpl; intros done pl pl' H Hr.
  - inversion H; subst. exact Hr.
  - destruct (select_group u pl g0) as [pl1 | e] eqn:E; simpl in H;
      [| discriminate H].
    apply (reflects_ext u (fun g => existsb (String.eqb g) selected
                                    || ((g =? g0)%string || done g))).
    + intros g. destruct (g =? g0)%string, (existsb (String.eqb g) selected);
        reflexivity.
    + exact (IH _ pl1 pl' H (select_group_reflects u done g0 pl pl1 E Hr)).
Qed.

(** A payload whose flags are all "maya" and that has no follow-up column
    reflects that nothing was picked. *)
Lemma reflects_nothing (u : ui) (pl : dict pyval) :
  forallb (fun p : string * symptom =>
             py_eq (py_get (flag (snd p)) pl) (VStr "maya")
             && forallb (fun col => negb (dict_mem col pl)) (field_columns (snd p)))
          SYMPTOMS = true ->
  reflects u (fun _ => false) pl.
Proof.
  intros H. rewrite forallb_forall in H. split.
  - intros g cfg Hg. specialize (H _ (dict_get_In _ _ _ _ Hg)). simpl snd in H.
    apply andb_prop in H. destruct H as [H _].
    apply py_eq_get_token. exact H.
  - intros g cfg f Hg Hin. specialize (H _ (dict_get_In _ _ _ _ Hg)). simpl snd in H.
    apply andb_prop in H. destruct H as [_ H].
    rewrite forallb_forall in H.
    specialize (H (fst (fst f))
                  (in_map (fun x : string * string * string => fst (fst x)) _ _ Hin)).
    unfold dict_mem in H. destruct (dict_get (fst (fst f)) pl); [discriminate H |].
    reflexivity.
Qed.

Lemma all_tokens_check (pl : dict pyval) :
  forallb (fun kv : string * pyval =>
             match snd kv with
             | VStr s => negb (s =? "")%string
             | _ => false
             end) pl = true ->
  all_tokens pl.
Proof.
  intros H k v Hk. rewrite forallb_forall in H.
  specialize (H _ (dict_get_In _ _ _ _ Hk)). simpl snd in H.
  destruct v as [| b | z | | s]; try discriminate H.
  exists s. split; [reflexivity |].
  intros ->. discriminate H.
Qed.

Lemma all_tokens_set (k s : string) (pl : dict pyval) :
  s <> ""%string -> all_tokens pl -> all_tokens (dict_set k (VStr s) pl).
Proof.
  intros Hs H j v Hj. rewrite dict_get_set in Hj.
  destruct (j =? k)%string; [| exact (H j v Hj)].
  inversion Hj; subst v. exists s. split; [reflexivity | exact Hs].
Qed.

Lemma ask_fields_all_tokens (u : ui) (group : string) (cfg : symptom) :
  forall pl, all_tokens pl -> all_tokens (ask_fields u group cfg pl).
Proof.
  unfold ask_fields.
  induction (fields cfg) as [| [[col label] wtype] l IH]; simpl; intros pl H.
  - exact H.
  - apply IH.
    destruct (render_select _ _ _ _) as [tok |] eqn:E; [| exact H].
    apply all_tokens_set; [| exact H].
    exact (proj2 (render_select_token _ _ _ _ _ E)).
Qed.

Lemma foldM_select_group_all_tokens (u : ui) (selected : list string) :
  forall pl pl',
    foldM (select_group u) selected pl = Ret pl' ->
    all_tokens pl -> all_tokens pl'.
Proof.
  induction selected as [| g0 selected IH]; simpl; intros pl pl' H Ht.
  - inversion H; subst. exact Ht.
  - destruct (select_group u pl g0) as [pl1 | e] eqn:E; simpl in H;
      [| discriminate H].
    apply (IH pl1 pl' H).
    unfold select_group, dict_subscript in E.
    destruct (dict_get g0 SYMPTOMS) as [cfg0 |]; simpl in E; [| discriminate E].
    inversion E; subst pl1.
    apply ask_fields_all_tokens. apply all_tokens_set; [| exact Ht].
    intros Eq. discriminate Eq.
Qed.

(** The payload before any group is selected. *)
Lemma default_flags_start (u : ui) (pl0 : dict pyval) :
  payload_with_age u = Ret pl0 ->
  reflects u (fun _ => false) (default_flags pl0)
  /\ all_tokens (default_flags pl0)
  /\ (dict_get "Age_Group" (default_flags pl0)
      = option_map VStr
          (match st_selectbox AGE_DISPLAY (age_choice u) with
           | Some a => dict_get a AGE_MAP
           | None => None
           end)).
Proof.
  unfold payload_with_age.
  destruct (age_choice u) as [[| [| [| i]]] |]; simpl;
    try (destruct i; simpl);
    intros H; inversion H; subst pl0;
    (split; [apply reflects_nothing; vm_compute; reflexivity |]);
    (split; [apply all_tokens_check; vm_compute; reflexivity |]);
    vm_compute; reflexivity.
Qed.

(** The shape of the payload the form builds: the payload after the loop
    over the selected groups, then the derived feature, then the count. *)
Lemma build_payload_shape (NUM_COLS : list string) (u : ui) :
  exists pl1,
    build_payload NUM_COLS u
    = Ret (add_red_flag_count NUM_COLS (derive_fever_with_fatigue pl1))
    /\ flags_set pl1
    /\ reflects u (fun g => existsb (String.eqb g) (selected_groups u)) pl1
    /\ all_tokens pl1
    /\ incl (dict_keys pl1) (EXPECTED_COLS CAT_FALLBACK NUM_FALLBACK).
Proof.
  destruct (payload_with_age_defaults u) as [pl0 [H0 Hinv0]].
  destruct (foldM_select_group u (selected_groups u)
              (st_multiselect_incl _ _) (default_flags pl0) Hinv0)
    as [pl1 [H1 Hinv1]].
  destruct (default_flags_start u pl0 H0) as [Hr0 [Ht0 _]].
  exists pl1. split; [| split; [exact Hinv1 | split; [| split]]].
  - unfold build_payload. rewrite H0. cbn [bind].
    fold (selected_groups u). rewrite H1. reflexivity.
  - apply (reflects_ext u (fun g => existsb (String.eqb g) (selected_groups u) || false)).
    + intros g. apply orb_false_r.
    + exact (foldM_select_group_reflects u _ _ _ _ H1 Hr0).
  - exact (foldM_select_group_all_tokens u _ _ _ H1 Ht0).
  - apply (foldM_select_group_keys u _ _ _ H1).
    intros j Hj. apply default_flags_keys in Hj. destruct Hj as [Hj | Hj].
    + revert j Hj. apply inclb_incl. vm_compute. reflexivity.
    + exact (payload_with_age_keys u pl0 H0 j Hj).
Qed.

Lemma derive_fever_with_fatigue_get (pl : dict pyval) (k : string) :
  (k =? "Fever_With_Fatigue")%string = false ->
  dict_get k (derive_fever_with_fatigue pl) = dict_get k pl.
Proof.
  intros H. unfold derive_fever_with_fatigue.
  destruct (_ && _); [| reflexivity].
  rewrite dict_get_set, H. reflexivity.
Qed.

(** A key that is neither derived key is read from the payload after the
    loop over the selected groups. *)
Lemma built_get (NUM_COLS : list string) (pl1 : dict pyval) (k : string) :
  ~ In k [ "Fever_With_Fatigue"; "Red_Flag_Count" ] ->
  dict_get k (add_red_flag_count NUM_COLS (derive_fever_with_fatigue pl1))
  = dict_get k pl1.
Proof.
  intros H.
  rewrite add_red_flag_count_get, derive_fever_with_fatigue_get.
  - reflexivity.
  - apply String.eqb_neq. intros ->. apply H. left. reflexivity.
  - apply String.eqb_neq. intros ->. apply H. right. left. reflexivity.
Qed.

Lemma foldM_select_group_age (u : ui) (selected : list string) :
  forall pl pl',
    foldM (select_group u) selected pl = Ret pl' ->
    dict_get "Age_Group" pl' = dict_get "Age_Group" pl.
Proof.
  induction selected as [| g0 selected IH]; simpl; intros pl pl' H.
  - inversion H; subst. reflexivity.
  - destruct (select_group u pl g0) as [pl1 | e] eqn:E; simpl in H;
      [| discriminate H].
    rewrite (IH pl1 pl' H).
    unfold select_group, dict_subscript in E.
    destruct (dict_get g0 SYMPTOMS) as [cfg0 |] eqn:Hg0; simpl in E;
      [| discriminate E].
    inversion E; subst pl1.
    destruct (group_fresh_facts g0 cfg0 Hg0) as [_ [Hcols Hflag]].
    rewrite ask_fields_get_other.
    + apply dict_get_set_other. intros Eq. apply Hflag. rewrite <- Eq.
      right. right. left. reflexivity.
    + intros Hin. apply (Hcols _ Hin). right. right. left. reflexivity.
Qed.

(** X2.  The form always builds a payload.  In it [Age_Group] holds the
    token of the age picked and is absent when no age is picked, and the
    [Has_*] flag of each group is "haa" when the group is among those
    selected and "maya" when it is not. *)
Theorem build_payload_flags (NUM_COLS : list string) (u : ui) :
  exists pl,
    build_payload NUM_COLS u = Ret pl
    /\ dict_get "Age_Group" pl
       = option_map VStr (match st_selectbox AGE_DISPLAY (age_choice u) with
                          | Some a => dict_get a AGE_MAP
                          | None => None
                          end)
    /\ (forall g cfg, dict_get g SYMPTOMS = Some cfg ->
          dict_get (flag cfg) pl
          = Some (VStr (if existsb (String.eqb g) (selected_groups u)
                        then "haa" else "maya"))).
Proof.
  destruct (payload_with_age_defaults u) as [pl0 [H0 Hinv0]].
  destruct (foldM_select_group u (selected_groups u)
              (st_multiselect_incl _ _) (default_flags pl0) Hinv0)
    as [pl1 [H1 _]].
  destruct (default_flags_start u pl0 H0) as [Hr0 [_ Hage]].
  pose proof (foldM_select_group_reflects u _ _ _ _ H1 Hr0) as [Hflags _].
  exists (add_red_flag_count NUM_COLS (derive_fever_with_fatigue pl1)).
  split; [| split].
  - unfold build_payload. rewrite H0. cbn [bind].
    fold (selected_groups u). rewrite H1. reflexivity.
  - rewrite built_get.
    + rewrite (foldM_select_group_age u _ _ _ H1). exact Hage.
    + intros [E | [E | []]]; discriminate E.
  - intros g cfg Hg.
    destruct (group_fresh_facts g cfg Hg) as [_ [_ Hflag]].
    rewrite built_get.
    + rewrite (Hflags g cfg Hg), orb_false_r. reflexivity.
    + intros [E | [E | []]]; apply Hflag; rewrite <- E.
      * left. reflexivity.
      * right. left. reflexivity.
Qed.

(** An adult with fever and fatigue: the cough flag is "maya". *)
Lemma build_payload_flags_witness :
  exists pl,
    build_payload NUM_FALLBACK ui_fever_fatigue = Ret pl
    /\ dict_get "Has_Cough" pl = Some (VStr "maya")
    /\ dict_get "Has_Fatigue" pl = Some (VStr "haa").
Proof.
  destruct (build_payload_flags NUM_FALLBACK ui_fever_fatigue)
    as [pl [Hret [_ Hflags]]].
  exists pl. split; [exact Hret |]. split.
  - apply (Hflags "Cough" {| flag := "Has_Cough";
                             fields := [ ("Cough_Type", "Type of cough", "cough");
                                         ("Cough_Duration_Level", "Cough duration", "dur");
                                         ("Blood_Cough", "Coughing blood", "yn");
                                         ("Breath_Difficulty", "Shortness of breath", "yn") ] |}).
    reflexivity.
  - apply (Hflags "Fatigue" {| flag := "Has_Fatigue";
                               fields := [ ("Fatigue_Severity", "Fatigue severity", "sev");
                                           ("Fatigue_Duration_Level", "Fatigue duration", "dur");
                                           ("Weight_Loss", "Unintentional weight loss", "yn") ] |}).
    reflexivity.
Defined.

(** X3.  Each follow-up column of the payload holds exactly the answer given
    in its select box when its group is among those selected (absent when
    the box is left empty), and is absent when the group is not selected:
    answers of one group never land in, or overwrite, another column. *)
Theorem build_payload_answers (NUM_COLS : list string) (u : ui) :
  exists pl,
    build_payload NUM_COLS u = Ret pl
    /\ (forall g cfg col label wtype,
          dict_get g SYMPTOMS = Some cfg ->
          In (col, label, wtype) (fields cfg) ->
          dict_get col pl
          = if existsb (String.eqb g) (selected_groups u)
            then option_map VStr (render_select u label wtype (g ++ ":" ++ col)%string)
            else None).
Proof.
  destruct (build_payload_shape NUM_COLS u) as [pl1 [Hret [_ [[_ Hcols] _]]]].
  exists (add_red_flag_count NUM_COLS (derive_fever_with_fatigue pl1)).
  split; [exact Hret |].
  intros g cfg col label wtype Hg Hin.
  destruct (group_fresh_facts g cfg Hg) as [_ [Hfresh _]].
  rewrite built_get.
  - exact (Hcols g cfg (col, label, wtype) Hg Hin).
  - assert (Hc : In col (field_columns cfg))
      by exact (in_map (fun x : string * string * string => fst (fst x)) _ _ Hin).
    intros [E | [E | []]]; apply (Hfresh col Hc); rewrite <- E.
    + left. reflexivity.
    + right. left. reflexivity.
Qed.

(** Fever picked with the third severity: stored under [Fever_Level]. *)
Lemma build_payload_answers_witness :
  exists pl,
    build_payload NUM_FALLBACK ui_fever_fatigue = Ret pl
    /\ dict_get "Fever_Level" pl = Some (VStr "aad u daran").
Proof.
  destruct (build_payload_answers NUM_FALLBACK ui_fever_fatigue)
    as [pl [Hret Hcols]].
  exists pl. split; [exact Hret |].
  apply (Hcols "Fever"
               {| flag := "Has_Fever";
                  fields := [ ("Fever_Level", "Fever severity", "sev");
                              ("Fever_Duration_Level", "Fever duration", "dur");
                              ("Chills", "Chills", "yn") ] |}
               "Fever_Level" "Fever severity" "sev").
  - reflexivity.
  - left. reflexivity.
Defined.

(** ** The red-flag count of the form *)

Lemma derive_fever_with_fatigue_all_tokens (pl : dict pyval) :
  all_tokens pl -> all_tokens (derive_fever_with_fatigue pl).
Proof.
  intros H. unfold derive_fever_with_fatigue.
  destruct (_ && _); [| exact H].
  apply all_tokens_set; [intros E; discriminate E | exact H].
Qed.

(** On a payload of non-empty texts the scorer's [or] falls back exactly
    when the [_Severity] key is absent. *)
Lemma compute_red_flag_count_all_tokens (pl : dict pyval) :
  all_tokens pl -> compute_red_flag_count pl = red_flag_tally_if_absent pl.
Proof.
  intros Ht. rewrite compute_red_flag_count_split.
  unfold red_flag_tally_if_absent, is_yes. rewrite Z.add_0_l.
  f_equal. apply tally_pointwise. intros k _.
  unfold is_very_severe, severity_if_absent, py_or, py_get at 1 2, dict_get_default.
  destruct (dict_get k pl) as [v |] eqn:E; [| reflexivity].
  destruct (Ht k v E) as [s [-> Hs]]. simpl.
  apply String.eqb_neq in Hs. rewrite Hs. reflexivity.
Qed.

Lemma scorer_keys_not_count :
  forallb (fun k => negb (k =? "Red_Flag_Count")%string)
          (DANGER_KEYS ++ SEVERITY_KEYS ++ map level_key SEVERITY_KEYS) = true.
Proof. vm_compute. reflexivity. Qed.

(** The scorer does not read the key its result is stored under. *)
Lemma red_flag_tally_if_absent_count (v : pyval) (pl : dict pyval) :
  red_flag_tally_if_absent (dict_set "Red_Flag_Count" v pl)
  = red_flag_tally_if_absent pl.
Proof.
  pose proof scorer_keys_not_count as Hk. rewrite forallb_forall in Hk.
  assert (Hne : forall k, In k (DANGER_KEYS ++ SEVERITY_KEYS
                                ++ map level_key SEVERITY_KEYS) ->
                          (k =? "Red_Flag_Count")%string = false).
  { intros k Hin. apply negb_true_iff. exact (Hk k Hin). }
  unfold red_flag_tally_if_absent. f_equal; [f_equal |].
  - apply tally_pointwise. intros k Hin. unfold is_yes.
    rewrite py_get_set, Hne; [reflexivity |].
    apply in_or_app. left. exact Hin.
  - apply tally_pointwise. intros k Hin. unfold severity_if_absent.
    rewrite dict_get_set, py_get_set.
    rewrite (Hne k) by (apply in_or_app; right; apply in_or_app; left; exact Hin).
    rewrite (Hne (level_key k)); [reflexivity |].
    apply in_or_app. right. apply in_or_app. right.
    apply in_map. exact Hin.
Qed.

Lemma default_flags_no_count (u : ui) (pl0 : dict pyval) :
  payload_with_age u = Ret pl0 ->
  dict_get "Red_Flag_Count" (default_flags pl0) = None.
Proof.
  unfold payload_with_age.
  destruct (age_choice u) as [[| [| [| i]]] |]; simpl;
    try (destruct i; simpl);
    intros H; inversion H; subst pl0; vm_compute; reflexivity.
Qed.

Lemma foldM_select_group_count (u : ui) (selected : list string) :
  forall pl pl',
    foldM (select_group u) selected pl = Ret pl' ->
    dict_get "Red_Flag_Count" pl' = dict_get "Red_Flag_Count" pl.
Proof.
  induction selected as [| g0 selected IH]; simpl; intros pl pl' H.
  - inversion H; subst. reflexivity.
  - destruct (select_group u pl g0) as [pl1 | e] eqn:E; simpl in H;
      [| discriminate H].
    rewrite (IH pl1 pl' H).
    unfold select_group, dict_subscript in E.
    destruct (dict_get g0 SYMPTOMS) as [cfg0 |] eqn:Hg0; simpl in E;
      [| discriminate E].
    inversion E; subst pl1.
    destruct (group_fresh_facts g0 cfg0 Hg0) as [_ [Hcols Hflag]].
    rewrite ask_fields_get_other.
    + apply dict_get_set_other. intros Eq. apply Hflag. rewrite <- Eq.
      right. left. reflexivity.
    + intros Hin. apply (Hcols _ Hin). right. left. reflexivity.
Qed.

(** X4.  When the schema has the column [Red_Flag_Count], the payload of the
    form holds under that key the tally of its own answers exactly as the
    danger-sign and severity keys define it (the [_Level] key being read
    only for an absent [_Severity] key, since every answer of the form is a
    non-empty token), a number from 0 to 9; when the schema lacks the
    column, the payload has no such key. *)
Theorem build_payload_red_flag_count (NUM_COLS : list string) (u : ui) :
  exists pl,
    build_payload NUM_COLS u = Ret pl
    /\ (existsb (String.eqb "Red_Flag_Count") NUM_COLS = true ->
        dict_get "Red_Flag_Count" pl = Some (VInt (red_flag_tally_if_absent pl))
        /\ 0 <= red_flag_tally_if_absent pl <= 9)
    /\ (existsb (String.eqb "Red_Flag_Count") NUM_COLS = false ->
        dict_get "Red_Flag_Count" pl = None).
Proof.
  destruct (payload_with_age_defaults u) as [pl0 [H0 Hinv0]].
  destruct (foldM_select_group u (selected_groups u)
              (st_multiselect_incl _ _) (default_flags pl0) Hinv0)
    as [pl1 [H1 _]].
  destruct (default_flags_start u pl0 H0) as [_ [Ht0 _]].
  pose proof (foldM_select_group_all_tokens u _ _ _ H1 Ht0) as Ht1.
  pose proof (derive_fever_with_fatigue_all_tokens pl1 Ht1) as Ht.
  exists (add_red_flag_count NUM_COLS (derive_fever_with_fatigue pl1)).
  split; [| split].
  - unfold build_payload. rewrite H0. cbn [bind].
    fold (selected_groups u). rewrite H1. reflexivity.
  - intros Hin. unfold add_red_flag_count. rewrite Hin.
    rewrite red_flag_tally_if_absent_count, dict_get_set_same.
    rewrite (compute_red_flag_count_all_tokens _ Ht).
    split; [reflexivity |].
    unfold red_flag_tally_if_absent.
    pose proof (tally_bounds (is_yes (derive_fever_with_fatigue pl1)) DANGER_KEYS) as Hd.
    pose proof (tally_bounds
                  (fun k => is_very_severe
                              (severity_if_absent (derive_fever_with_fatigue pl1) k))
                  SEVERITY_KEYS) as Hs.
    simpl List.length in Hd, Hs. lia.
  - intros Hout. unfold add_red_flag_count. rewrite Hout.
    rewrite derive_fever_with_fatigue_get by reflexivity.
    rewrite (foldM_select_group_count u _ _ _ H1).
    exact (default_flags_no_count u pl0 H0).
Qed.

(** An adult with fever and fatigue, fever very severe: the count is 1. *)
Lemma build_payload_red_flag_count_witness :
  exists pl,
    build_payload NUM_FALLBACK ui_fever_fatigue = Ret pl
    /\ dict_get "Red_Flag_Count" pl = Some (VInt (red_flag_tally_if_absent pl))
    /\ 0 <= red_flag_tally_if_absent pl <= 9.
Proof.
  destruct (build_payload_red_flag_count NUM_FALLBACK ui_fever_fatigue)
    as [pl [Hret [Hin _]]].
  exists pl. split; [exact Hret |].
  apply Hin. reflexivity.
Defined.

Lemma tally_positive (test : string -> bool) (l : list string) (k : string) :
  In k l -> test k = true -> 1 <= tally test l.
Proof.
  unfold tally. intros Hin Ht.
  assert (H : In k (filter test l)) by (apply filter_In; split; assumption).
  destruct (filter test l) as [| x r]; [destruct H |].
  simpl List.length. lia.
Qed.

Lemma level_keys_not_columns :
  forallb (fun sevk =>
             negb (existsb (String.eqb sevk) (CAT_FALLBACK ++ NUM_FALLBACK))
             || negb (existsb (String.eqb (level_key sevk))
                              (CAT_FALLBACK ++ NUM_FALLBACK)))
          SEVERITY_KEYS = true.
Proof. vm_compute. reflexivity. Qed.

(** X5.  When the schema has the column [Red_Flag_Count], a danger-sign
    answer "Yes" or a severity answer "very severe" given in a selected
    group is counted: the payload's red-flag count is at least 1.  This holds
    for the fever severity too, which the form stores under [Fever_Level]
    and the scorer reads through its fallback. *)
Theorem build_payload_red_flag_counted
        (NUM_COLS : list string) (u : ui)
        (g : string) (cfg : symptom) (col label wtype : string) :
  existsb (String.eqb "Red_Flag_Count") NUM_COLS = true ->
  dict_get g SYMPTOMS = Some cfg ->
  In (col, label, wtype) (fields cfg) ->
  existsb (String.eqb g) (selected_groups u) = true ->
  (In col DANGER_KEYS
   /\ render_select u label wtype (g ++ ":" ++ col)%string = Some "haa")
  \/ (In col (SEVERITY_KEYS ++ map level_key SEVERITY_KEYS)
      /\ render_select u label wtype (g ++ ":" ++ col)%string = Some "aad u daran") ->
  exists pl n,
    build_payload NUM_COLS u = Ret pl
    /\ dict_get "Red_Flag_Count" pl = Some (VInt n)
    /\ 1 <= n.
Proof.
  intros Hschema Hg Hin Hsel Hans.
  destruct (build_payload_shape NUM_COLS u)
    as [pl1 [Hret [_ [[_ Hcols] [Ht1 Hkeys]]]]].
  set (pre := derive_fever_with_fatigue pl1) in *.
  exists (add_red_flag_count NUM_COLS pre), (compute_red_flag_count pre).
  split; [exact Hret |]. split.
  { unfold add_red_flag_count. rewrite Hschema. apply dict_get_set_same. }
  destruct (group_fresh_facts g cfg Hg) as [_ [Hfresh _]].
  assert (Hc : In col (field_columns cfg))
    by exact (in_map (fun x : string * string * string => fst (fst x)) _ _ Hin).
  assert (Hnf : (col =? "Fever_With_Fatigue")%string = false).
  { apply String.eqb_neq. intros ->. apply (Hfresh _ Hc). left. reflexivity. }
  assert (Hval : forall tok,
             render_select u label wtype (g ++ ":" ++ col)%string = Some tok ->
             dict_get col pre = Some (VStr tok) /\ dict_get col pl1 = Some (VStr tok)).
  { intros tok Hr.
    pose proof (Hcols g cfg (col, label, wtype) Hg Hin) as Hv.
    simpl fst in Hv. rewrite Hsel in Hv. unfold answer in Hv. rewrite Hr in Hv.
    split; [| exact Hv].
    unfold pre. rewrite derive_fever_with_fatigue_get by exact Hnf. exact Hv. }
  rewrite compute_red_flag_count_split.
  pose proof (tally_bounds (fun k => py_eq (py_get k pre) (VStr "haa")) DANGER_KEYS)
    as [Hd _].
  pose proof (tally_bounds
                (fun sevk => py_eq (py_or (py_get sevk pre) (py_get (level_key sevk) pre))
                                   (VStr "aad u daran")) SEVERITY_KEYS) as [Hs _].
  destruct Hans as [[Hdanger Hr] | [Hsev Hr]].
  - destruct (Hval _ Hr) as [Hv _].
    pose proof (tally_positive (fun k => py_eq (py_get k pre) (VStr "haa"))
                               DANGER_KEYS col Hdanger
                               (proj2 (py_eq_get_token col "haa" pre) Hv)) as Hpos.
    lia.
  - destruct (Hval _ Hr) as [Hv Hv1].
    apply in_app_or in Hsev. destruct Hsev as [Hsev | Hlev].
    + assert (Htest : py_eq (py_or (py_get col pre) (py_get (level_key col) pre))
                            (VStr "aad u daran") = true).
      { unfold py_or, py_get at 1 2, dict_get_default. rewrite Hv. reflexivity. }
      pose proof (tally_positive
                    (fun sevk => py_eq (py_or (py_get sevk pre)
                                              (py_get (level_key sevk) pre))
                                       (VStr "aad u daran"))
                    SEVERITY_KEYS col Hsev Htest) as Hpos.
      lia.
    + apply in_map_iff in Hlev. destruct Hlev as [sevk [Hlk Hsevk]].
      assert (Habsent : dict_get sevk pre = None).
      { pose proof level_keys_not_columns as Hchk. rewrite forallb_forall in Hchk.
        specialize (Hchk sevk Hsevk). rewrite Hlk in Hchk.
        assert (Hcolkey : existsb (String.eqb col) (CAT_FALLBACK ++ NUM_FALLBACK) = true).
        { apply existsb_eqb_In. apply Hkeys.
          destruct (in_dec string_dec col (dict_keys pl1)) as [Hk | Hk]; [exact Hk |].
          apply dict_get_none_keys in Hk. rewrite Hk in Hv1. discriminate Hv1. }
        rewrite Hcolkey in Hchk. change (negb true) with false in Hchk.
        rewrite orb_false_r in Hchk.
        apply negb_true_iff in Hchk.
        assert (Hno : dict_get sevk pl1 = None).
        { apply dict_get_none_keys. intros Hk. apply Hkeys in Hk.
          apply existsb_eqb_In in Hk. unfold EXPECTED_COLS in Hk.
          rewrite Hk in Hchk. discriminate Hchk. }
        unfold pre, derive_fever_with_fatigue.
        destruct (_ && _); [| exact Hno].
        rewrite dict_get_set. destruct (sevk =? "Fever_With_Fatigue")%string eqn:E;
          [| exact Hno].
        apply String.eqb_eq in E. subst sevk.
        simpl in Hsevk. destruct Hsevk as [E | [E | [E | [E | []]]]]; discriminate E. }
      assert (Htest : py_eq (py_or (py_get sevk pre) (py_get (level_key sevk) pre))
                            (VStr "aad u daran") = true).
      { unfold py_or, py_get, dict_get_default. rewrite Habsent, Hlk, Hv. reflexivity. }
      pose proof (tally_positive
                    (fun sevk => py_eq (py_or (py_get sevk pre)
                                              (py_get (level_key sevk) pre))
                                       (VStr "aad u daran"))
                    SEVERITY_KEYS sevk Hsevk Htest) as Hpos.
      lia.
Qed.

(** The fever of [ui_fever_fatigue], very severe. *)
Lemma build_payload_red_flag_counted_witness :
  exists pl n,
    build_payload NUM_FALLBACK ui_fever_fatigue = Ret pl
    /\ dict_get "Red_Flag_Count" pl = Some (VInt n)
    /\ 1 <= n.
Proof.
  apply (build_payload_red_flag_counted
           NUM_FALLBACK ui_fever_fatigue "Fever"
           {| flag := "Has_Fever";
              fields := [ ("Fever_Level", "Fever severity", "sev");
                          ("Fever_Duration_Level", "Fever duration", "dur");
                          ("Chills", "Chills", "yn") ] |}
           "Fever_Level" "Fever severity" "sev").
  - reflexivity.
  - reflexivity.
  - left. reflexivity.
  - reflexivity.
  - right. split; [| reflexivity].
    apply (inclb_incl [ "Fever_Level" ]); [vm_compute; reflexivity |].
    left. reflexivity.
Defined.

(** ** The table of the form *)

Lemma flags_in_CAT_FALLBACK (g : string) (cfg : symptom) :
  dict_get g SYMPTOMS = Some cfg -> In (flag cfg) CAT_FALLBACK.
Proof.
  intros Hg.
  pose proof SYMPTOMS_in_schema as Hok. rewrite forallb_forall in Hok.
  specialize (Hok cfg (dict_get_values _ _ _ _ Hg)).
  unfold group_in_schema in Hok. rewrite forallb_forall in Hok.
  specialize (Hok (flag cfg) (or_introl eq_refl)).
  apply existsb_eqb_In in Hok. apply in_app_or in Hok.
  destruct Hok as [H | H]; [exact H |].
  destruct (group_fresh_facts g cfg Hg) as [_ [_ Hflag]].
  exfalso. apply Hflag. simpl in H. destruct H as [<- | []].
  right. left. reflexivity.
Qed.

(** X6.  On the built-in schema, whatever is picked in the form, the table
    handed to the classifier has exactly the schema's columns in schema
    order, and the cell of each [Has_*] column is "haa" or "maya" according
    to whether its group is among those selected. *)
Theorem form_table (pd_to_numeric : pyval -> exc pyval) (u : ui) :
  exists pl df,
    build_payload NUM_FALLBACK u = Ret pl
    /\ make_input_df CAT_FALLBACK NUM_FALLBACK pd_to_numeric (Some pl) = Ret df
    /\ columns df = EXPECTED_COLS CAT_FALLBACK NUM_FALLBACK
    /\ (forall g cfg, dict_get g SYMPTOMS = Some cfg ->
          value_at (flag cfg) df
          = Some (VStr (if existsb (String.eqb g) (selected_groups u)
                        then "haa" else "maya"))).
Proof.
  destruct (build_payload_shape NUM_FALLBACK u)
    as [pl1 [Hret [Hfs [[Hflags _] _]]]].
  set (pl := add_red_flag_count NUM_FALLBACK (derive_fever_with_fatigue pl1)) in *.
  destruct (build_payload_keys_in_schema u) as [pl' [Hret' Hkeys]].
  rewrite Hret in Hret'. inversion Hret'; subst pl'. clear Hret'.
  assert (Hschema : NoDup (EXPECTED_COLS CAT_FALLBACK NUM_FALLBACK))
    by (apply distinctb_NoDup; vm_compute; reflexivity).
  assert (Hnd : NoDup (dict_keys pl)).
  { apply add_red_flag_count_NoDup.
    exact (proj1 (derive_fever_with_fatigue_flags pl1 Hfs)). }
  destruct (make_input_df_ret CAT_FALLBACK NUM_FALLBACK pd_to_numeric (Some pl))
    as [df [Hdf [Hcols _]]].
  exists pl, df. split; [exact Hret |]. split; [exact Hdf |]. split.
  - rewrite Hcols.
    assert (Hcomp : dict_keys (dict_comp (fun c : string => c) (fun _ => VNaN)
                                 (EXPECTED_COLS CAT_FALLBACK NUM_FALLBACK))
                    = EXPECTED_COLS CAT_FALLBACK NUM_FALLBACK).
    { unfold dict_comp.
      rewrite (dict_keys_fold_set pyval (fun _ => VNaN)); [reflexivity | exact Hschema]. }
    rewrite dict_keys_update_subset; [exact Hcomp |].
    rewrite Hcomp. exact Hkeys.
  - intros g cfg Hg.
    destruct (make_input_df_categorical_cell CAT_FALLBACK NUM_FALLBACK pd_to_numeric
                pl (flag cfg) Hschema Hnd (flags_in_CAT_FALLBACK g cfg Hg))
      as [df' [Hdf' Hval]].
    rewrite Hdf in Hdf'. inversion Hdf'; subst df'. rewrite Hval.
    destruct (group_fresh_facts g cfg Hg) as [_ [_ Hflag]].
    unfold pl. rewrite built_get.
    + rewrite (Hflags g cfg Hg).
      destruct (existsb (String.eqb g) (selected_groups u)); reflexivity.
    + intros [E | [E | []]]; apply Hflag; rewrite <- E.
      * left. reflexivity.
      * right. left. reflexivity.
Qed.

(** An adult with fever and fatigue: the [Has_Fever] cell is "haa". *)
Lemma form_table_witness :
  exists pl df,
    build_payload NUM_FALLBACK ui_fever_fatigue = Ret pl
    /\ make_input_df CAT_FALLBACK NUM_FALLBACK to_numeric_decimal (Some pl) = Ret df
    /\ columns df = EXPECTED_COLS CAT_FALLBACK NUM_FALLBACK
    /\ value_at "Has_Fever" df = Some (VStr "haa").
Proof.
  destruct (form_table to_numeric_decimal ui_fever_fatigue)
    as [pl [df [Hpl [Hdf [Hcols Hflags]]]]].
  exists pl, df. split; [exact Hpl |]. split; [exact Hdf |]. split; [exact Hcols |].
  apply (Hflags "Fever"
                {| flag := "Has_Fever";
                   fields := [ ("Fever_Level", "Fever severity", "sev");
                               ("Fever_Duration_Level", "Fever duration", "dur");
                               ("Chills", "Chills", "yn") ] |}).
  reflexivity.
Defined.

(** ** The Assess button *)

Lemma age_option_truthy (i : option nat) (a : string) :
  st_selectbox AGE_DISPLAY i = Some a -> (a =? "")%string = false.
Proof.
  destruct i as [[| [| [| i]]] |]; simpl; try (destruct i; simpl);
    intros H; inversion H; reflexivity.
Qed.

(** X7.  The Assess button warns about the age group when none is picked,
    whatever else is picked; it warns about the symptoms when an age is
    picked and no symptom is; in both cases the classifier is not called.
    With an age and a symptom picked it calls the classifier on the table of
    the payload: when the classifier returns, the button yields the decoded
    label and never raises; when the classifier raises, so does the
    button. *)
Theorem assess_label_outcome
        (CAT_COLS NUM_COLS : list string) (pd_to_numeric : pyval -> exc pyval)
        (predict : dataframe -> exc pyval) (le : option (pyval -> exc pyval))
        (u : ui) :
  (st_selectbox AGE_DISPLAY (age_choice u) = None ->
   assess_label CAT_COLS NUM_COLS pd_to_numeric predict le u
   = Ret (Warned "Please select your age group."))
  /\ (st_selectbox AGE_DISPLAY (age_choice u) <> None ->
      selected_groups u = [] ->
      assess_label CAT_COLS NUM_COLS pd_to_numeric predict le u
      = Ret (Warned "Please select at least one symptom."))
  /\ (st_selectbox AGE_DISPLAY (age_choice u) <> None ->
      selected_groups u <> [] ->
      exists pl df,
        build_payload NUM_COLS u = Ret pl
        /\ make_input_df CAT_COLS NUM_COLS pd_to_numeric (Some pl) = Ret df
        /\ (forall y, predict df = Ret y ->
              exists tok,
                decode_label le y = Ret tok
                /\ assess_label CAT_COLS NUM_COLS pd_to_numeric predict le u
                   = Ret (Labelled tok))
        /\ (forall e, predict df = Raise e ->
              assess_label CAT_COLS NUM_COLS pd_to_numeric predict le u = Raise e)).
Proof.
  destruct (build_payload_shape NUM_COLS u) as [pl1 [Hret _]].
  set (pl := add_red_flag_count NUM_COLS (derive_fever_with_fatigue pl1)) in *.
  unfold assess_label. fold (selected_groups u). rewrite Hret. cbn [bind].
  split; [| split].
  - intros Hage. rewrite Hage. reflexivity.
  - intros Hage Hsel.
    destruct (st_selectbox AGE_DISPLAY (age_choice u)) as [a |] eqn:Ea;
      [| contradiction].
    rewrite (age_option_truthy _ _ Ea), Hsel. reflexivity.
  - intros Hage Hsel.
    destruct (st_selectbox AGE_DISPLAY (age_choice u)) as [a |] eqn:Ea;
      [| contradiction].
    rewrite (age_option_truthy _ _ Ea).
    destruct (selected_groups u) as [| g0 rest]; [contradiction |].
    cbn [negb List.length Nat.eqb].
    destruct (make_input_df_ret CAT_COLS NUM_COLS pd_to_numeric (Some pl))
      as [df [Hdf _]].
    exists pl, df. split; [reflexivity |]. split; [exact Hdf |].
    rewrite Hdf. cbn [bind]. split.
    + intros y Hy. rewrite Hy. cbn [bind].
      unfold decode_label.
      destruct le as [inverse_transform |]; simpl.
      * destruct (isinstance_int y); simpl.
        -- destruct (inverse_transform y); simpl; eexists; split; reflexivity.
        -- eexists; split; reflexivity.
      * eexists; split; reflexivity.
    + intros e He. rewrite He. reflexivity.
Qed.

(** An adult with fever and fatigue, a classifier that answers class 2 and
    no label encoder: the label token is the text "2". *)
Lemma assess_label_outcome_witness :
  exists pl df,
    build_payload NUM_FALLBACK ui_fever_fatigue = Ret pl
    /\ make_input_df CAT_FALLBACK NUM_FALLBACK to_numeric_decimal (Some pl) = Ret df
    /\ (forall y, Ret (VInt 2) = Ret y ->
          exists tok,
            decode_label None y = Ret tok
            /\ assess_label CAT_FALLBACK NUM_FALLBACK to_numeric_decimal
                 (fun _ => Ret (VInt 2)) None ui_fever_fatigue
               = Ret (Labelled tok))
    /\ (forall e, Ret (VInt 2) = Raise e ->
          assess_label CAT_FALLBACK NUM_FALLBACK to_numeric_decimal
            (fun _ => Ret (VInt 2)) None ui_fever_fatigue = Raise e).
Proof.
  apply (proj2 (proj2 (assess_label_outcome
                         CAT_FALLBACK NUM_FALLBACK to_numeric_decimal
                         (fun _ => Ret (VInt 2)) None ui_fever_fatigue))).
  - vm_compute. intros H. discriminate H.
  - vm_compute. intros H. discriminate H.
Defined.

(** ** More on the feature assembler *)

Lemma foldM_astype_object_dtype (l : list string) :
  forall df df',
    foldM astype_object l df = Ret df' ->
    forall c,
      In c l \/ option_map cell_dtype (dict_get c df) = Some DObject ->
      option_map cell_dtype (dict_get c df') = Some DObject.
Proof.
  induction l as [| x l IH]; simpl; intros df df' H c Hc.
  - inversion H; subst. destruct Hc as [[] | Hc]. exact Hc.
  - unfold astype_object at 1, dict_subscript in H.
    destruct (dict_get x df) as [col |] eqn:Hx; simpl in H; [| discriminate H].
    apply (IH _ _ H).
    destruct (c =? x)%string eqn:E.
    + right. rewrite dict_get_set, E. reflexivity.
    + destruct Hc as [[Hcx | Hin] | Hd].
      * subst x. rewrite String.eqb_refl in E. discriminate E.
      * left. exact Hin.
      * right. rewrite dict_get_set, E. exact Hd.
Qed.

(** X8.  Whatever the payload holds, every categorical schema column of the
    table is of dtype [object]. *)
Theorem make_input_df_object_columns
        (CAT_COLS NUM_COLS : list string) (pd_to_numeric : pyval -> exc pyval)
        (payload : option (dict pyval)) (c : string) :
  In c CAT_COLS ->
  exists df,
    make_input_df CAT_COLS NUM_COLS pd_to_numeric payload = Ret df
    /\ option_map cell_dtype (dict_get c df) = Some DObject.
Proof.
  intros Hc.
  destruct (make_input_df_ret CAT_COLS NUM_COLS pd_to_numeric payload)
    as [df [Hret _]].
  exists df. split; [exact Hret |].
  unfold make_input_df in Hret.
  destruct (foldM (num_step pd_to_numeric) NUM_COLS _) as [row | e];
    simpl in Hret; [| discriminate Hret].
  destruct (foldM astype_object CAT_COLS (pd_DataFrame row)) as [df1 | e] eqn:E;
    simpl in Hret; [| discriminate Hret].
  inversion Hret; subst df1.
  apply (foldM_astype_object_dtype CAT_COLS _ _ E). left. exact Hc.
Qed.

(** A number supplied for the categorical column [Chills]. *)
Lemma make_input_df_object_columns_witness :
  exists df,
    make_input_df CAT_FALLBACK NUM_FALLBACK to_numeric_decimal
      (Some [ ("Chills", VInt 1) ]) = Ret df
    /\ option_map cell_dtype (dict_get "Chills" df) = Some DObject.
Proof.
  apply make_input_df_object_columns.
  apply (inclb_incl [ "Chills" ]); [vm_compute; reflexivity |].
  left. reflexivity.
Defined.

(** [update] with a dict appends its new keys in its order. *)
Lemma dict_keys_update (V : Type) (e : dict V) :
  NoDup (dict_keys e) ->
  forall d,
    dict_keys (dict_update d e)
    = dict_keys d ++ filter (fun k => negb (dict_mem k d)) (dict_keys e).
Proof.
  unfold dict_update.
  induction e as [| [k v] e IH]; simpl; intros Hnd d.
  - rewrite app_nil_r. reflexivity.
  - inversion Hnd as [| ? ? Hk Hnd']; subst.
    rewrite (IH Hnd').
    assert (Hmem : forall j, In j (dict_keys e) ->
                     dict_mem j (dict_set k v d) = dict_mem j d).
    { intros j Hj. unfold dict_mem. rewrite dict_get_set.
      destruct (j =? k)%string eqn:E; [| reflexivity].
      apply String.eqb_eq in E. subst j. contradiction. }
    assert (Hfilter : filter (fun j => negb (dict_mem j (dict_set k v d))) (dict_keys e)
                      = filter (fun j => negb (dict_mem j d)) (dict_keys e)).
    { apply filter_ext_in. intros j Hj. rewrite (Hmem j Hj). reflexivity. }
    rewrite Hfilter.
    destruct (dict_get k d) as [w |] eqn:Ek.
    + assert (Em : dict_mem k d = true) by (unfold dict_mem; rewrite Ek; reflexivity).
      rewrite Em. cbn [negb].
      rewrite dict_keys_set_in; [reflexivity |].
      destruct (in_dec string_dec k (dict_keys d)) as [H | H]; [exact H |].
      apply dict_get_none_keys in H. rewrite H in Ek. discriminate Ek.
    + assert (Em : dict_mem k d = false) by (unfold dict_mem; rewrite Ek; reflexivity).
      rewrite Em. cbn [negb].
      rewrite dict_keys_set_notin by (apply dict_get_none_keys; exact Ek).
      rewrite <- app_assoc. reflexivity.
Qed.

(** X9.  For a schema of distinct names and a payload (distinct keys), the
    columns of the table are the schema's columns in schema order followed
    by the payload's keys that are no schema column, in the payload's order;
    the cell of such an extra column is the payload's value, untouched. *)
Theorem make_input_df_extra_columns
        (CAT_COLS NUM_COLS : list string) (pd_to_numeric : pyval -> exc pyval)
        (payload : dict pyval) :
  NoDup (EXPECTED_COLS CAT_COLS NUM_COLS) ->
  NoDup (dict_keys payload) ->
  exists df,
    make_input_df CAT_COLS NUM_COLS pd_to_numeric (Some payload) = Ret df
    /\ columns df
       = EXPECTED_COLS CAT_COLS NUM_COLS
         ++ filter (fun k => negb (existsb (String.eqb k)
                                           (EXPECTED_COLS CAT_COLS NUM_COLS)))
                   (dict_keys payload)
    /\ (forall k, ~ In k (EXPECTED_COLS CAT_COLS NUM_COLS) ->
          value_at k df = dict_get k payload).
Proof.
  intros Hschema Hpl.
  destruct (make_input_df_ret CAT_COLS NUM_COLS pd_to_numeric (Some payload))
    as [df [Hret [Hcols Hval]]].
  exists df. split; [exact Hret |].
  assert (Hget : forall k,
             dict_get k (dict_comp (fun c : string => c) (fun _ => VNaN)
                           (EXPECTED_COLS CAT_COLS NUM_COLS))
             = if existsb (String.eqb k) (EXPECTED_COLS CAT_COLS NUM_COLS)
               then Some VNaN else None).
  { intros k. unfold dict_comp.
    rewrite (dict_get_fold_set pyval (fun _ => VNaN)). reflexivity. }
  split.
  - rewrite Hcols, (dict_keys_update _ _ Hpl). f_equal.
    + unfold dict_comp.
      rewrite (dict_keys_fold_set pyval (fun _ => VNaN)); [reflexivity | exact Hschema].
    + apply filter_ext. intros k. unfold dict_mem. rewrite Hget.
      destruct (existsb (String.eqb k) (EXPECTED_COLS CAT_COLS NUM_COLS)); reflexivity.
  - intros k Hk. rewrite Hval.
    rewrite dict_get_fold_assign
      with (h := fun o => coerced pd_to_numeric (match o with Some v => v | None => VNaN end))
      by exact (NoDup_app_remove_l _ _ Hschema).
    rewrite existsb_eqb_notin
      by (intros Hin; apply Hk; apply in_or_app; right; exact Hin).
    rewrite dict_get_fold_assign
      with (h := fun o => categorical (match o with Some v => v | None => VNaN end))
      by exact (NoDup_app_remove_r _ _ Hschema).
    rewrite existsb_eqb_notin
      by (intros Hin; apply Hk; apply in_or_app; left; exact Hin).
    rewrite (dict_get_update _ _ _ Hpl), Hget, (existsb_eqb_notin _ _ Hk).
    destruct (dict_get k payload); reflexivity.
Qed.

(** Two keys outside the built-in schema around one inside it. *)
Lemma make_input_df_extra_columns_witness :
  exists df,
    make_input_df CAT_FALLBACK NUM_FALLBACK to_numeric_decimal
      (Some [ ("Vomiting_Level", VNone); ("Chills", VStr "haa");
              ("Fever_Severity", VStr " x ") ]) = Ret df
    /\ columns df
       = EXPECTED_COLS CAT_FALLBACK NUM_FALLBACK
         ++ filter (fun k => negb (existsb (String.eqb k)
                                           (EXPECTED_COLS CAT_FALLBACK NUM_FALLBACK)))
                   [ "Vomiting_Level"; "Chills"; "Fever_Severity" ]
    /\ (forall k, ~ In k (EXPECTED_COLS CAT_FALLBACK NUM_FALLBACK) ->
          value_at k df
          = dict_get k [ ("Vomiting_Level", VNone); ("Chills", VStr "haa");
                         ("Fever_Severity", VStr " x ") ]).
Proof.
  apply (make_input_df_extra_columns CAT_FALLBACK NUM_FALLBACK to_numeric_decimal
           [ ("Vomiting_Level", VNone); ("Chills", VStr "haa");
             ("Fever_Severity", VStr " x ") ]).
  - apply distinctb_NoDup. vm_compute. reflexivity.
  - apply distinctb_NoDup. vm_compute. reflexivity.
Defined.

(** X10.  A numeric schema column for which the payload has no value holds
    what [pandas.to_numeric] makes of the [np.nan] the row starts with, and
    [np.nan] when that call raises; it is [np.nan] whenever pandas returns a
    float [np.nan] as it is. *)
Theorem make_input_df_numeric_absent
        (CAT_COLS NUM_COLS : list string) (pd_to_numeric : pyval -> exc pyval)
        (payload : dict pyval) (c : string) :
  NoDup (EXPECTED_COLS CAT_COLS NUM_COLS) ->
  NoDup (dict_keys payload) ->
  In c NUM_COLS ->
  dict_get c payload = None ->
  exists df,
    make_input_df CAT_COLS NUM_COLS pd_to_numeric (Some payload) = Ret df
    /\ value_at c df = Some (match pd_to_numeric VNaN with
                             | Ret n => n
                             | Raise _ => VNaN
                             end)
    /\ (pd_to_numeric VNaN = Ret VNaN -> value_at c df = Some VNaN).
Proof.
  intros Hnd Hpl Hc Hv.
  destruct (make_input_df_ret CAT_COLS NUM_COLS pd_to_numeric (Some payload))
    as [df [Hret [_ Hval]]].
  exists df. split; [exact Hret |].
  assert (Hcell : value_at c df = Some (coerced pd_to_numeric VNaN)).
  { rewrite Hval.
    rewrite dict_get_fold_assign
      with (h := fun o => coerced pd_to_numeric (match o with Some v => v | None => VNaN end))
      by exact (NoDup_app_remove_l _ _ Hnd).
    assert (Hex : existsb (String.eqb c) NUM_COLS = true)
      by (apply existsb_eqb_In; exact Hc).
    rewrite Hex.
    rewrite dict_get_fold_assign
      with (h := fun o => categorical (match o with Some v => v | None => VNaN end))
      by exact (NoDup_app_remove_r _ _ Hnd).
    rewrite existsb_eqb_notin
      by (intros Hin; exact (NoDup_app_disjoint _ _ _ Hnd Hin Hc)).
    rewrite dict_get_row0.
    - rewrite Hv. reflexivity.
    - exact Hpl.
    - apply in_or_app. right. exact Hc. }
  split; [exact Hcell |].
  intros Hnan. rewrite Hcell. unfold coerced. rewrite Hnan. reflexivity.
Qed.

(** A payload without [Red_Flag_Count] on the built-in schema. *)
Lemma make_input_df_numeric_absent_witness :
  exists df,
    make_input_df CAT_FALLBACK NUM_FALLBACK to_numeric_decimal
      (Some [ ("Has_Fever", VStr "haa") ]) = Ret df
    /\ value_at "Red_Flag_Count" df = Some VNaN
    /\ (to_numeric_decimal VNaN = Ret VNaN ->
        value_at "Red_Flag_Count" df = Some VNaN).
Proof.
  apply (make_input_df_numeric_absent CAT_FALLBACK NUM_FALLBACK to_numeric_decimal
           [ ("Has_Fever", VStr "haa") ] "Red_Flag_Count").
  - apply distinctb_NoDup. vm_compute. reflexivity.
  - apply distinctb_NoDup. vm_compute. reflexivity.
  - left. reflexivity.
  - reflexivity.
Defined.

(** ** Advice and colour *)

(** X11.  The advice and the colour shown for a label token never disagree:
    the emergency advice comes only with the red scheme, the outpatient
    advice only with the amber scheme, the home-care advice only with the
    green scheme.  (A token with the general advice can have any scheme.) *)
Theorem advice_matches_colour (label_token : string) :
  (tip_text label_token = TIP_EMERGENCY ->
   triage_style_from_token (Some label_token) = RED)
  /\ (tip_text label_token = TIP_MODERATE ->
      triage_style_from_token (Some label_token) = AMBER)
  /\ (tip_text label_token = TIP_MILD ->
      triage_style_from_token (Some label_token) = GREEN).
Proof.
  unfold tip_text, TRIAGE_TIPS. simpl dict_get.
  destruct (label_token =? "Xaalad fudud (Daryeel guri)")%string eqn:E1;
    [apply String.eqb_eq in E1; subst label_token;
     repeat split; intros H; try (vm_compute in H; discriminate H);
     vm_compute; reflexivity |].
  destruct (label_token =? "Xaalad dhax dhaxaad eh (Bukaan socod)")%string eqn:E2;
    [apply String.eqb_eq in E2; subst label_token;
     repeat split; intros H; try (vm_compute in H; discriminate H);
     vm_compute; reflexivity |].
  destruct (label_token =? "Xaalad dhax dhaxaad ah (Bukaan socod)")%string eqn:E3;
    [apply String.eqb_eq in E3; subst label_token;
     repeat split; intros H; try (vm_compute in H; discriminate H);
     vm_compute; reflexivity |].
  destruct (label_token =? "Xaalad deg deg ah")%string eqn:E4;
    [apply String.eqb_eq in E4; subst label_token;
     repeat split; intros H; try (vm_compute in H; discriminate H);
     vm_compute; reflexivity |].
  repeat split; intros H; vm_compute in H; discriminate H.
Qed.

(** The emergency label. *)
Lemma advice_matches_colour_witness :
  triage_style_from_token (Some "Xaalad deg deg ah") = RED.
Proof.
  apply (proj1 (advice_matches_colour "Xaalad deg deg ah")).
  vm_compute. reflexivity.
Defined.
